(** * Atlas overlap statistics: a shallow embedding of
      [figures/atlas_overlap/compute_atlas_overlap.py]

    The Python module computes, for a lesion mask and a label atlas that
    live on one voxel grid, how many lesion voxels fall inside each atlas
    region.  This file embeds its functions ([clean_label],
    [load_brainstem_labels], [load_tailrach_atlas_labels],
    [load_neudorfer_atlas_labels], [compute_stats_atlas]) together with
    the few numpy, pandas and nibabel operations they call, and proves the
    properties of the specification against the embedding.

    Modelling conventions
    - a Python [str] is a [string]; one [ascii] stands for one code point
      in the range U+0000..U+00FF;
    - a Python [int] is a [Z]; a voxel count is a [nat];
    - a floating point number is the rational it denotes ([Q]) and the
      volumes of [compute_stats_atlas] are computed exactly; the arithmetic
      as numpy performs it, in float32 with its rounding, infinities and
      NaN, is the module [F32];
    - an [ndarray] is a shape and its elements in C (row-major) order;
    - a raised exception is the [inl] of the [result] type. *)

From Stdlib Require Import QArith Lqa Ascii.
From Stdlib Require SpecFloat.
From stdpp Require Import base gmap list strings.

Local Open Scope string_scope.

(** ** Exceptions *)

Inductive error : Type :=
  | FileNotFoundError (path : string)
  | KeyError (key : Z)
  | ValueError (msg : string)
  | Exception (msg : string).

Definition result (A : Type) : Type := error + A.

Definition raise {A} (e : error) : result A := inl e.

#[global] Instance result_ret : MRet result := fun _ x => inr x.
#[global] Instance result_bind : MBind result := fun _ _ f m =>
  match m with
  | inl e => inl e
  | inr x => f x
  end.

(** ** Strings: [str.strip] and [str.replace] *)

Module PyStr.

(** [str.isspace] on the code points below 256: TAB, LF, VT, FF, CR, the
    four separators FS, GS, RS, US, the space, NEL and the no-break space. *)
Definition isspace (c : ascii) : bool :=
  let n := nat_of_ascii c in
  ((9 <=? n)%nat && (n <=? 13)%nat)
  || ((28 <=? n)%nat && (n <=? 32)%nat)
  || (n =? 133)%nat || (n =? 160)%nat.

Fixpoint lstrip (s : string) : string :=
  match s with
  | EmptyString => EmptyString
  | String c s' => if isspace c then lstrip s' else s
  end.

Fixpoint rstrip (s : string) : string :=
  match s with
  | EmptyString => EmptyString
  | String c s' =>
      match rstrip s' with
      | EmptyString => if isspace c then EmptyString else String c EmptyString
      | r => String c r
      end
  end.

(** [s.strip()] *)
Definition strip (s : string) : string := rstrip (lstrip s).

(** The scan of [s.replace(old, new)] for a non-empty [old]: occurrences are
    found from left to right and do not overlap; [skip] counts the
    characters of the current occurrence that are still to be dropped. *)
Fixpoint replace_from (old new : string) (skip : nat) (s : string) : string :=
  match s with
  | EmptyString => EmptyString
  | String c s' =>
      match skip with
      | S k => replace_from old new k s'
      | O =>
          if String.prefix old s
          then new ++ replace_from old new (String.length old - 1) s'
          else String c (replace_from old new 0 s')
      end
  end.

(** With an empty [old], Python puts [new] in front of every character and
    at the end. *)
Fixpoint replace_empty (new s : string) : string :=
  match s with
  | EmptyString => new
  | String c s' => new ++ String c (replace_empty new s')
  end.

(** [s.replace(old, new)] *)
Definition replace (old new s : string) : string :=
  match old with
  | EmptyString => replace_empty new s
  | _ => replace_from old new 0 s
  end.

End PyStr.

(** [clean_label(label_name)] *)
Definition clean_label (label_name : string) : string :=
  if String.eqb (PyStr.strip label_name) "*.*.*.*." then "Background"
  else
    let cleaned :=
      PyStr.replace "*" ""
        (PyStr.replace ".*" "" (PyStr.replace "*." "" label_name)) in
    PyStr.strip cleaned.

(** *** The normalizer as the specification words it

    "removes every occurrence of the two-character substrings [*.] and
    [.*] and every occurrence of the bare character [*], in that fixed
    order, then trims surrounding whitespace". *)

Fixpoint remove_pair (a b : ascii) (s : string) : string :=
  match s with
  | EmptyString => EmptyString
  | String x s' =>
      match s' with
      | EmptyString => s
      | String y rest =>
          if Ascii.eqb x a && Ascii.eqb y b then remove_pair a b rest
          else String x (remove_pair a b s')
      end
  end.

Fixpoint remove_char (a : ascii) (s : string) : string :=
  match s with
  | EmptyString => EmptyString
  | String x s' =>
      if Ascii.eqb x a then remove_char a s' else String x (remove_char a s')
  end.

Definition normalize_spec (raw : string) : string :=
  if String.eqb (PyStr.strip raw) "*.*.*.*." then "Background"
  else PyStr.strip (remove_char "*" (remove_pair "." "*" (remove_pair "*" "." raw))).


(** ** numpy arrays *)

Module Np.

(** An array: its shape and its elements in C order. *)
Record ndarray (A : Type) : Type := mk_ndarray {
  shape : list nat;
  data : list A
}.
Arguments mk_ndarray {A} shape data.
Arguments shape {A} _.
Arguments data {A} _.

(** Number of elements of an array of shape [s]. *)
Definition size_of (s : list nat) : nat := foldr Nat.mul 1%nat s.

(** The arrays numpy can build: as many elements as the shape says. *)
Definition wf {A} (a : ndarray A) : Prop := length (data a) = size_of (shape a).

(** Conversion of a float to an integer: the fractional part is dropped. *)
Definition trunc (q : Q) : Z := Z.quot (Qnum q) (Zpos (Qden q)).

(** The cast of one finite float64 to [np.uint8], as numpy performs it on
    x86-64: the value is converted to a signed 32-bit integer by truncation
    and the low eight bits of that integer are kept.  A value whose
    truncation does not fit 32 bits converts to the integer that has only
    its sign bit set, so that the result is 0. *)
Definition to_uint8 (q : Q) : Z :=
  let z := trunc q in
  if (-2147483648 <=? z)%Z && (z <? 2147483648)%Z then (z mod 256)%Z
  else 0%Z.

(** [a.astype(np.uint8)] on a float64 array *)
Definition astype_uint8 (a : ndarray Q) : ndarray Z :=
  mk_ndarray (shape a) (map to_uint8 (data a)).

(** [np.zeros_like(a)] *)
Definition zeros_like (a : ndarray Z) : ndarray Z :=
  mk_ndarray (shape a) (map (fun _ => 0%Z) (data a)).

(** [a == k] for a Python integer [k]: the comparison is between the
    integer values, [k] is not cast to the array's type. *)
Definition eq_scalar (a : ndarray Z) (k : Z) : ndarray bool :=
  mk_ndarray (shape a) (map (fun v => Z.eqb v k) (data a)).

(** [out[cond] = v] for a boolean mask [cond] of the shape of [out] *)
Definition set_where (out : ndarray Z) (cond : ndarray bool) (v : Z) : ndarray Z :=
  mk_ndarray (shape out)
    (zip_with (fun o (c : bool) => if c then v else o) (data out) (data cond)).

(** Broadcasting.  Shapes are aligned on their last axis, the shorter one is
    completed with axes of length 1 on the left; two axes are compatible
    when they are equal or one of them is 1. *)
Definition pad_left (n : nat) (s : list nat) : list nat :=
  replicate (n - length s) 1%nat ++ s.

Definition broadcast_dim (a b : nat) : option nat :=
  if (a =? b)%nat then Some a
  else if (a =? 1)%nat then Some b
  else if (b =? 1)%nat then Some a
  else None.

Fixpoint broadcast_dims (s1 s2 : list nat) : option (list nat) :=
  match s1, s2 with
  | [], [] => Some []
  | a :: s1', b :: s2' =>
      d ← broadcast_dim a b;
      r ← broadcast_dims s1' s2';
      Some (d :: r)
  | _, _ => None
  end.

Definition broadcast_shapes (s1 s2 : list nat) : option (list nat) :=
  let n := length s1 `max` length s2 in
  broadcast_dims (pad_left n s1) (pad_left n s2).

(** [chunks n size l]: the [n] consecutive blocks of [size] elements of [l]. *)
Fixpoint chunks {A} (n size : nat) (l : list A) : list (list A) :=
  match n with
  | O => []
  | S n' => take size l :: chunks n' size (drop size l)
  end.

(** The elements of an array of shape [src] seen through the shape [dst] it
    broadcasts to (both of the same length): an axis of length 1 is
    repeated along the axis of [dst]. *)
Fixpoint broadcast_data {A} (src dst : list nat) (l : list A) : list A :=
  match src, dst with
  | d :: src', D :: dst' =>
      let rows := map (broadcast_data src' dst') (chunks d (size_of src') l) in
      if (d =? D)%nat then concat rows
      else concat (replicate D (concat rows))
  | _, _ => l
  end.

Definition broadcast_to {A} (a : ndarray A) (dst : list nat) : list A :=
  broadcast_data (pad_left (length dst) (shape a)) dst (data a).

(** [a * b] on [np.uint8] arrays: elementwise after broadcasting, modulo
    256; shapes that do not broadcast raise [ValueError]. *)
Definition multiply (a b : ndarray Z) : result (ndarray Z) :=
  match broadcast_shapes (shape a) (shape b) with
  | None => raise (ValueError "operands could not be broadcast together")
  | Some s =>
      mret (mk_ndarray s
              (zip_with (fun x y => (x * y) mod 256)%Z
                 (broadcast_to a s) (broadcast_to b s)))
  end.

(** [np.count_nonzero(a)] *)
Definition count_nonzero (a : ndarray Z) : nat :=
  length (filter (fun v => v ≠ 0%Z) (data a)).

(** [np.prod(t)] of a tuple of floats *)
Definition prod (t : list Q) : Q := fold_left Qmult t 1%Q.

End Np.

(** ** External collaborators: nibabel images and catalog tables *)

(** What the code reads of a loaded image: [get_fdata()] and
    [header.get_zooms()]. *)
Record nifti : Type := {
  get_fdata : Np.ndarray Q;
  get_zooms : list Q
}.

(** Rows of the two catalog tables, as [pd.read_csv] returns them for a
    table whose identifier column holds integers. *)
Record tailrach_row : Type := {
  Index : Z;
  Description : string
}.

Record neudorfer_row : Type := {
  Label : Z;
  Hemisphere : string;
  Abbreviation : string;
  Name : string
}.

(** The files the program can reach.  A path that is not there makes the
    loader raise. *)
Record environment : Type := {
  nib_load : string -> option nifti;
  read_tailrach_csv : string -> option (list tailrach_row);
  read_neudorfer_csv : string -> option (list neudorfer_row)
}.

Definition load {A} (files : string -> option A) (path : string) : result A :=
  match files path with
  | Some x => mret x
  | None => raise (FileNotFoundError path)
  end.

(** ** The label catalogs *)

(** [d[k]] on a dict with integer keys *)
Definition getitem (d : gmap Z string) (k : Z) : result string :=
  match d !! k with
  | Some v => mret v
  | None => raise (KeyError k)
  end.

(** [load_brainstem_labels()] *)
Definition load_brainstem_labels : list Z * gmap Z string :=
  let atlas_labels := map Z.of_nat (seq 0 24) in
  let atlas_labels_names : gmap Z string :=
    list_to_map
      [ (0, "Not_in_Atlas"); (1, "CSTL_Atlas"); (2, "CSTR_Atlas");
        (3, "FPTL_Atlas"); (4, "FPTR_Atlas"); (5, "ICPMCL_Atlas");
        (6, "ICPMCR_Atlas"); (7, "ICPVCL_Atlas"); (8, "ICPVCR_Atlas");
        (9, "LLL_Atlas"); (10, "LLR_Atlas"); (11, "MCP_Atlas");
        (12, "MLL_Atlas"); (13, "MLR_Atlas"); (14, "POTPTL_Atlas");
        (15, "POTPTR_Atlas"); (16, "SCPCRL_Atlas"); (17, "SCPCRR_Atlas");
        (18, "SCPCTL_Atlas"); (19, "SCPCTR_Atlas"); (20, "SCPSCL_Atlas");
        (21, "SCPSCR_Atlas"); (22, "STTL_Atlas"); (23, "STTR_Atlas") ]%Z in
  (atlas_labels, atlas_labels_names).

(** [load_tailrach_atlas_labels(csv_file)] *)
Definition load_tailrach_atlas_labels (env : environment) (csv_file : string)
  : result (list Z * gmap Z string) :=
  df ← load (read_tailrach_csv env) csv_file;
  let atlas_labels := map Index df in
  let atlas_labels_names :=
    foldl (fun (names : gmap Z string) row =>
             <[Index row := Description row]> names) ∅ df in
  mret (atlas_labels, atlas_labels_names).

(** [load_neudorfer_atlas_labels(csv_file)] *)
Definition load_neudorfer_atlas_labels (env : environment) (csv_file : string)
  : result (list Z * gmap Z string) :=
  df ← load (read_neudorfer_csv env) csv_file;
  let atlas_labels := map Label df in
  let atlas_labels_names :=
    foldl (fun (names : gmap Z string) row =>
             let name_str :=
               Hemisphere row ++ "_" ++ Abbreviation row ++ "_" ++ Name row in
             <[Label row := name_str]> names) ∅ df in
  mret (atlas_labels, atlas_labels_names).

(** ** The overlap computation *)

(** One row of the results table. *)
Record region_stat : Type := {
  atlas_label : string;
  n_label_voxels : nat;
  label_volume : Q;
  n_lesion_voxels : nat;
  lesion_volume : Q;
  lesion_volume_percent : Q
}.

Definition Q_of_count (n : nat) : Q := inject_Z (Z.of_nat n).

(** The body of the loop over the catalog (one region). *)
Definition region_stats (lesion_mask_data warped_atlas_mask_data : Np.ndarray Z)
    (voxel_dims : list Q) (region_id : Z) (region_name : string)
  : result region_stat :=
  let current_atlas_mask :=
    Np.set_where (Np.zeros_like warped_atlas_mask_data)
      (Np.eq_scalar warped_atlas_mask_data region_id) 1 in
  current_lesion_mask ← Np.multiply lesion_mask_data current_atlas_mask;
  let lesion_voxel_count := Np.count_nonzero current_lesion_mask in
  let lesion_volume := (Q_of_count lesion_voxel_count * Np.prod voxel_dims)%Q in
  let region_voxel_count := Np.count_nonzero current_atlas_mask in
  let region_volume := (Q_of_count region_voxel_count * Np.prod voxel_dims)%Q in
  let normalized_lesion_volume :=
    if Qlt_le_dec 0 region_volume then (lesion_volume / region_volume)%Q
    else 0%Q in
  mret {| atlas_label := region_name;
          n_label_voxels := region_voxel_count;
          label_volume := region_volume;
          n_lesion_voxels := lesion_voxel_count;
          lesion_volume := lesion_volume;
          lesion_volume_percent := (100 * normalized_lesion_volume)%Q |}.

(** The catalog selected by [atlas_type]. *)
Definition load_atlas_labels (env : environment) (atlas_type : string)
  : result (list Z * gmap Z string) :=
  if String.eqb atlas_type "neudorfer" then
    load_neudorfer_atlas_labels env "neudorfer_atlas_labels.csv"
  else if String.eqb atlas_type "tailrach" then
    load_tailrach_atlas_labels env "tailrach_atlas_labels.csv"
  else if String.eqb atlas_type "brainstem" then
    mret load_brainstem_labels
  else raise (Exception "Something went wrong!").

(** The loop of [compute_stats_atlas]: the names are looked up first (the
    list comprehension), then one record is appended per catalog entry. *)
Definition stats_loop (lesion_mask_data warped_atlas_mask_data : Np.ndarray Z)
    (voxel_dims : list Q) (atlas_labels : list Z)
    (atlas_labels_names : gmap Z string) : result (list region_stat) :=
  region_names ← mapM (getitem atlas_labels_names) atlas_labels;
  mapM (fun '(region_id, region_name) =>
          region_stats lesion_mask_data warped_atlas_mask_data voxel_dims
            region_id region_name)
       (zip atlas_labels region_names).

(** [compute_stats_atlas(lesion_mask_path, warped_atlas_mask_path,
    output_file, atlas_type)].  The value returned is the list of records
    the code hands to [pd.DataFrame(results).to_csv(output_file)]; an
    exception leaves nothing written. *)
Definition compute_stats_atlas (env : environment)
    (lesion_mask_path warped_atlas_mask_path : string) (atlas_type : string)
  : result (list region_stat) :=
  lesion_mask ← load (nib_load env) lesion_mask_path;
  let lesion_mask_data := Np.astype_uint8 (get_fdata lesion_mask) in
  warped_atlas_mask ← load (nib_load env) warped_atlas_mask_path;
  let warped_atlas_mask_data := Np.astype_uint8 (get_fdata warped_atlas_mask) in
  let voxel_dims := get_zooms lesion_mask in
  '(atlas_labels, atlas_labels_names) ← load_atlas_labels env atlas_type;
  stats_loop lesion_mask_data warped_atlas_mask_data voxel_dims
    atlas_labels atlas_labels_names.

(** ** The quantities the specification names

    Counts of grid cells, written from the specification's words, against
    which the records computed by the code are compared. *)

(** Number of grid cells where the label volume equals [region_id]. *)
Definition cells_with_label (labels : Np.ndarray Z) (region_id : Z) : nat :=
  length (filter (fun a => a = region_id) (Np.data labels)).

(** Number of grid cells where the lesion volume is nonzero and the label
    volume equals [region_id]. *)
Definition lesion_cells_with_label (lesion labels : Np.ndarray Z)
    (region_id : Z) : nat :=
  length (filter (fun c => c.1 ≠ 0%Z ∧ c.2 = region_id)
            (zip (Np.data lesion) (Np.data labels))).

(** Number of lesion-positive grid cells whose label is one of [ids]. *)
Definition lesion_cells_in_catalog (lesion labels : Np.ndarray Z)
    (ids : list Z) : nat :=
  length (filter (fun c => c.1 ≠ 0%Z ∧ c.2 ∈ ids)
            (zip (Np.data lesion) (Np.data labels))).

(** The record of one region, from the two counts and the voxel volume. *)
Definition record_of_counts (region_name : string)
    (region_voxel_count lesion_voxel_count : nat) (voxel_volume : Q)
  : region_stat :=
  let lesion_volume := (Q_of_count lesion_voxel_count * voxel_volume)%Q in
  let region_volume := (Q_of_count region_voxel_count * voxel_volume)%Q in
  {| atlas_label := region_name;
     n_label_voxels := region_voxel_count;
     label_volume := region_volume;
     n_lesion_voxels := lesion_voxel_count;
     lesion_volume := lesion_volume;
     lesion_volume_percent :=
       (100 * (if Qlt_le_dec 0 region_volume
               then lesion_volume / region_volume else 0))%Q |}.

(** The records of a whole catalog, in catalog order. *)
Definition records_of_catalog (lesion labels : Np.ndarray Z) (voxel_volume : Q)
    (atlas_labels : list Z) (atlas_labels_names : gmap Z string)
  : list region_stat :=
  map (fun region_id =>
         record_of_counts (default "" (atlas_labels_names !! region_id))
           (cells_with_label labels region_id)
           (lesion_cells_with_label lesion labels region_id)
           voxel_volume)
      atlas_labels.

(** The region indicator: 1 where the label equals [k], 0 elsewhere. *)
Definition indicator (k v : Z) : Z := if Z.eqb v k then 1%Z else 0%Z.

(** Values an [np.uint8] array can hold. *)
Definition is_uint8 (a : Np.ndarray Z) : Prop :=
  Forall (fun v => (0 <= v < 256)%Z) (Np.data a).

(** ** The float32 arithmetic of one catalog entry

    [header.get_zooms()] is a tuple of [np.float32]; [np.prod] of it, the
    two volumes, their quotient and the percentage are computed in float32
    (a Python integer that meets a float32 is converted to float32).
    [region_stats] above computes the same expressions on the rationals;
    this module computes them as numpy does. *)

Module F32.

Definition prec : Z := 24.
Definition emax : Z := 128.

(** The float32 nearest to an integer. *)
Definition of_int (z : Z) : SpecFloat.spec_float :=
  SpecFloat.binary_normalize prec emax z 0 false.

Definition mul : SpecFloat.spec_float -> SpecFloat.spec_float
                 -> SpecFloat.spec_float :=
  SpecFloat.SFmul prec emax.



(** [np.prod(t)] of a tuple of float32 *)
Definition prod (t : list SpecFloat.spec_float) : SpecFloat.spec_float :=
  fold_left mul t (of_int 1).





End F32.

(** Equality of two reals is decidable. *)
#[global] Instance Qeq_decision (x y : Q) : Decision (x == y)%Q := Qeq_dec x y.

(** ** Sample inputs

    A small file system used to run the code on concrete inputs. *)

Module Sample.

Definition image (s : list nat) (values spacing : list Q) : nifti :=
  {| get_fdata := Np.mk_ndarray s values; get_zooms := spacing |}.

(** A 2x1x2 lesion mask with voxels of 1 x 2 x 0.5 mm. *)
Definition lesion : nifti := image [2; 1; 2] [1; 0; 1; 1]%Q [1; 2; 1 # 2]%Q.

(** A 2x1x2 atlas; its last cell stores the label 261. *)
Definition atlas : nifti := image [2; 1; 2] [1; 1; 5; 261]%Q [1; 1; 1]%Q.

(** A 2x1x2 atlas that is 5 everywhere. *)
Definition atlas_five : nifti := image [2; 1; 2] [5; 5; 5; 5]%Q [1; 1; 1]%Q.

(** A one-voxel lesion mask and atlases of two and of three voxels. *)
Definition lesion_1 : nifti := image [1; 1; 1] [1]%Q [1; 1; 1]%Q.
Definition atlas_2 : nifti := image [2; 1; 1] [1; 1]%Q [1; 1; 1]%Q.
Definition atlas_3 : nifti := image [3; 1; 1] [1; 1; 1]%Q [1; 1; 1]%Q.
Definition lesion_2 : nifti := image [2; 1; 1] [1; 1]%Q [1; 1; 1]%Q.

(** A one-voxel atlas that stores the label 5. *)
Definition atlas_1 : nifti := image [1; 1; 1] [5]%Q [1; 1; 1]%Q.

(** A four-dimensional one-voxel image whose fourth spacing is 0. *)
Definition lesion_4d : nifti := image [1; 1; 1; 1] [1]%Q [1; 1; 1; 0]%Q.
Definition atlas_4d : nifti := image [1; 1; 1; 1] [1]%Q [1; 1; 1; 0]%Q.

Definition images : list (string * nifti) :=
  [ ("lesion.nii.gz", lesion); ("atlas.nii.gz", atlas);
    ("atlas_five.nii.gz", atlas_five);
    ("lesion_1.nii.gz", lesion_1); ("lesion_2.nii.gz", lesion_2);
    ("atlas_1.nii.gz", atlas_1); ("atlas_2.nii.gz", atlas_2);
    ("atlas_3.nii.gz", atlas_3);
    ("lesion_4d.nii.gz", lesion_4d); ("atlas_4d.nii.gz", atlas_4d) ].

Definition tailrach_table : list tailrach_row :=
  [ {| Index := 0; Description := "Unknown" |};
    {| Index := 1; Description := "Region A" |};
    {| Index := 261; Description := "Region B" |} ].

Definition tailrach_labels : list Z := [0; 1; 261]%Z.

Definition tailrach_names : gmap Z string :=
  list_to_map [ (0, "Unknown"); (1, "Region A"); (261, "Region B") ]%Z.

Definition neudorfer_table : list neudorfer_row :=
  [ {| Label := 1; Hemisphere := "Left"; Abbreviation := "AHA";
       Name := "Anterior hypothalamic area" |} ].

Definition file {A} (files : list (string * A)) (path : string) : option A :=
  (list_to_map files : gmap string A) !! path.

Definition env : environment :=
  {| nib_load := file images;
     read_tailrach_csv := file [("tailrach_atlas_labels.csv", tailrach_table)];
     read_neudorfer_csv := file [("neudorfer_atlas_labels.csv", neudorfer_table)] |}.

End Sample.

(** ** Stored values

    Predicates on the float arrays of the image files. *)

(** The array stores integers that fit [np.uint8]. *)
Definition stores_uint8 (a : Np.ndarray Q) : Prop :=
  Forall (fun v => exists z : Z, (0 <= z < 256)%Z /\ (v == inject_Z z)%Q)
         (Np.data a).

(** Every value of the array lies strictly between -1 and 1. *)
Definition stores_fractions (a : Np.ndarray Q) : Prop :=
  Forall (fun v => (-1 < v)%Q /\ (v < 1)%Q) (Np.data a).

(** The name a tabular catalog binds to [k]: the one of the last row whose
    identifier is [k]. *)
Definition last_row_with {R} (key : R -> Z) (k : Z) (rows : list R) : option R :=
  last (filter (fun row => key row = k) rows).

(** A string that does not begin with a whitespace character. *)
Definition clean_start (s : string) : Prop :=
  match s with
  | EmptyString => True
  | String c _ => PyStr.isspace c = false
  end.

(** More sample inputs. *)
Module SampleMore.

(** A table with a repeated identifier. *)
Definition tailrach_duplicates : list tailrach_row :=
  [ {| Index := 1; Description := "First" |};
    {| Index := 2; Description := "Other" |};
    {| Index := 1; Description := "Second" |} ].

(** A 2x1x2 lesion mask with interpolated values below 1. *)
Definition lesion_fractions : nifti :=
  Sample.image [2; 1; 2] [1 # 2; 0; 9 # 10; -(1 # 4)]%Q [1; 1; 1]%Q.

(** A 2x1x2 atlas with labels 0 and 1 only. *)
Definition atlas_small : nifti :=
  Sample.image [2; 1; 2] [0; 1; 1; 0]%Q [1; 1; 1]%Q.

Definition env : environment :=
  {| nib_load :=
       Sample.file
         [ ("lesion.nii.gz", Sample.lesion); ("atlas.nii.gz", Sample.atlas);
           ("atlas_small.nii.gz", atlas_small);
           ("lesion_fractions.nii.gz", lesion_fractions) ];
     read_tailrach_csv :=
       Sample.file [("tailrach_atlas_labels.csv", tailrach_duplicates)];
     read_neudorfer_csv := Sample.file [] |}.

End SampleMore.

(** * Properties *)

(** ** The [result] monad *)

Lemma mapM_result_ok {A B} (f : A -> result B) (g : A -> B) (l : list A) :
  Forall (fun x => f x = inr (g x)) l -> mapM f l = inr (map g l).
Proof.
  induction 1 as [|x l Hx _ IH]; [reflexivity|].
  cbn. rewrite Hx. cbn. rewrite IH. reflexivity.
Qed.

Lemma mapM_result_fail {A B} (f : A -> result B) (e : error) (x : A) (l : list A) :
  f x = inl e -> mapM f (x :: l) = inl e.
Proof. intros Hx. cbn. rewrite Hx. reflexivity. Qed.

(** ** Arrays *)

Section Arrays.

Lemma chunks_length {A} (n size : nat) (l : list A) :
  length l = (n * size)%nat ->
  Forall (fun c => length c = size) (Np.chunks n size l).
Proof.
  revert l. induction n as [|n IH]; intros l Hl; cbn; [constructor|].
  constructor.
  - rewrite length_take. lia.
  - apply IH. rewrite length_drop. lia.
Qed.

Lemma chunks_concat {A} (n size : nat) (l : list A) :
  length l = (n * size)%nat -> concat (Np.chunks n size l) = l.
Proof.
  revert l. induction n as [|n IH]; intros l Hl; cbn.
  - destruct l; [reflexivity | discriminate].
  - rewrite IH; [apply take_drop|]. rewrite length_drop. lia.
Qed.

Lemma broadcast_data_same {A} (s : list nat) (l : list A) :
  length l = Np.size_of s -> Np.broadcast_data s s l = l.
Proof.
  revert l. induction s as [|d s IH]; intros l Hl; [reflexivity|].
  cbn. rewrite Nat.eqb_refl.
  cbn in Hl.
  assert (Hmap : map (Np.broadcast_data s s) (Np.chunks d (Np.size_of s) l)
                 = Np.chunks d (Np.size_of s) l).
  { pose proof (chunks_length d (Np.size_of s) l Hl) as Hc.
    induction Hc as [|c cs Hc _ IHc]; [reflexivity|].
    cbn. rewrite IH by exact Hc. rewrite IHc. reflexivity. }
  rewrite Hmap. apply chunks_concat. exact Hl.
Qed.

Lemma pad_left_same (s : list nat) : Np.pad_left (length s) s = s.
Proof. unfold Np.pad_left. rewrite Nat.sub_diag. reflexivity. Qed.

Lemma broadcast_dims_same (s : list nat) : Np.broadcast_dims s s = Some s.
Proof.
  induction s as [|d s IH]; [reflexivity|].
  cbn. unfold Np.broadcast_dim. rewrite Nat.eqb_refl. cbn. rewrite IH. reflexivity.
Qed.

Lemma broadcast_shapes_same (s : list nat) : Np.broadcast_shapes s s = Some s.
Proof.
  unfold Np.broadcast_shapes. rewrite Nat.max_id, pad_left_same.
  apply broadcast_dims_same.
Qed.

(** On two arrays of one shape the product is elementwise. *)
Lemma multiply_same_shape (a b : Np.ndarray Z) :
  Np.wf a -> Np.wf b -> Np.shape a = Np.shape b ->
  Np.multiply a b =
  inr (Np.mk_ndarray (Np.shape a)
         (zip_with (fun x y => (x * y) mod 256)%Z (Np.data a) (Np.data b))).
Proof.
  intros Ha Hb Hs. unfold Np.multiply, Np.broadcast_to.
  rewrite <- Hs, broadcast_shapes_same, pad_left_same.
  rewrite broadcast_data_same by exact Ha.
  rewrite Hs, broadcast_data_same by exact Hb.
  reflexivity.
Qed.

End Arrays.

Section Counting.

Lemma astype_uint8_range (a : Np.ndarray Q) : is_uint8 (Np.astype_uint8 a).
Proof.
  unfold is_uint8, Np.astype_uint8. cbn.
  apply Forall_forall. intros v Hv. apply list_elem_of_fmap in Hv as (q & -> & _).
  unfold Np.to_uint8. cbn zeta.
  destruct (_ && _); [apply Z.mod_pos_bound|]; lia.
Qed.

Lemma astype_uint8_wf (a : Np.ndarray Q) : Np.wf a -> Np.wf (Np.astype_uint8 a).
Proof. unfold Np.wf, Np.astype_uint8. cbn. rewrite length_map. auto. Qed.

Lemma current_atlas_mask_data (a : Np.ndarray Z) (k : Z) :
  Np.data (Np.set_where (Np.zeros_like a) (Np.eq_scalar a k) 1)
  = map (indicator k) (Np.data a).
Proof.
  cbn. induction (Np.data a) as [|v l IH]; [reflexivity|].
  cbn. rewrite IH. reflexivity.
Qed.

Lemma count_indicator (k : Z) (l : list Z) :
  length (filter (fun v => v ≠ 0%Z) (map (indicator k) l))
  = length (filter (fun a => a = k) l).
Proof.
  induction l as [|v l IH]; [reflexivity|].
  cbn [map]. unfold indicator at 1. destruct (Z.eqb_spec v k) as [->|Hne].
  - rewrite !filter_cons_True by done. cbn [length]. rewrite IH. reflexivity.
  - rewrite filter_cons_False by (intros H; apply H; reflexivity).
    rewrite filter_cons_False by done. exact IH.
Qed.

Lemma count_product (k : Z) (ld la : list Z) :
  Forall (fun v => (0 <= v < 256)%Z) ld ->
  length (filter (fun v => v ≠ 0%Z)
            (zip_with (fun x y => (x * y) mod 256)%Z ld (map (indicator k) la)))
  = length (filter (fun c => c.1 ≠ 0%Z ∧ c.2 = k) (zip ld la)).
Proof.
  intros Hld. revert la. induction Hld as [|x ld Hx _ IH]; intros la; [reflexivity|].
  destruct la as [|y la]; [reflexivity|].
  cbn [map zip_with zip]. unfold indicator at 1.
  destruct (Z.eqb_spec y k) as [->|Hne].
  - rewrite Z.mul_1_r, Z.mod_small by lia.
    destruct (decide (x = 0%Z)) as [->|Hx0].
    + rewrite filter_cons_False by (intros H; apply H; reflexivity).
      rewrite filter_cons_False by (cbn; intros [H _]; apply H; reflexivity).
      apply IH.
    + rewrite !filter_cons_True by (cbn; auto). cbn. rewrite IH. reflexivity.
  - rewrite Z.mul_0_r, Zmod_0_l.
    rewrite filter_cons_False by (intros H; apply H; reflexivity).
    rewrite filter_cons_False by (cbn; intros [_ H]; auto).
    apply IH.
Qed.

Lemma lesion_cells_le (lesion labels : Np.ndarray Z) (k : Z) :
  (lesion_cells_with_label lesion labels k <= cells_with_label labels k)%nat.
Proof.
  unfold lesion_cells_with_label, cells_with_label.
  generalize (Np.data labels) as la. induction (Np.data lesion) as [|x ld IH];
    intros la; [cbn; lia|].
  destruct la as [|y la]; [cbn; lia|].
  cbn [zip_with]. specialize (IH la).
  destruct (decide (y = k)) as [->|Hne].
  - rewrite (filter_cons_True (fun a => a = k)) by done. cbn [length].
    destruct (decide (x = 0%Z)) as [->|Hx0].
    + rewrite filter_cons_False by (cbn; intros [H _]; apply H; reflexivity).
      lia.
    + rewrite filter_cons_True by (cbn; auto). cbn [length]. lia.
  - rewrite (filter_cons_False (fun a => a = k)) by done.
    rewrite filter_cons_False by (cbn; intros [_ H]; auto).
    exact IH.
Qed.

(** One iteration of the loop on two arrays of one shape. *)
Lemma region_stats_same_shape (lesion labels : Np.ndarray Z) (voxel_dims : list Q)
    (region_id : Z) (region_name : string) :
  Np.wf lesion -> Np.wf labels -> Np.shape lesion = Np.shape labels ->
  is_uint8 lesion ->
  region_stats lesion labels voxel_dims region_id region_name
  = inr (record_of_counts region_name
           (cells_with_label labels region_id)
           (lesion_cells_with_label lesion labels region_id)
           (Np.prod voxel_dims)).
Proof.
  intros Hwl Hwa Hs Hu. unfold region_stats.
  rewrite multiply_same_shape; [| exact Hwl | | exact Hs].
  2:{ unfold Np.wf in *. rewrite current_atlas_mask_data, length_map. exact Hwa. }
  cbn [mbind result_bind mret result_ret].
  unfold Np.count_nonzero. cbn [Np.data].
  rewrite !current_atlas_mask_data.
  rewrite count_product by exact Hu. rewrite count_indicator.
  reflexivity.
Qed.

End Counting.

(** ** Catalogs *)

Section Catalogs.

Lemma foldl_insert_keeps {R} (key : R -> Z) (val : R -> string)
    (rows : list R) (m : gmap Z string) (k : Z) :
  is_Some (m !! k) ->
  is_Some (foldl (fun names row => <[key row := val row]> names) m rows !! k).
Proof.
  revert m. induction rows as [|r rows IH]; intros m Hm; [exact Hm|].
  cbn. apply IH. destruct (decide (key r = k)) as [->|Hne].
  - rewrite lookup_insert_eq. eauto.
  - rewrite lookup_insert_ne by exact Hne. exact Hm.
Qed.

Lemma foldl_insert_total {R} (key : R -> Z) (val : R -> string)
    (rows : list R) (m : gmap Z string) :
  Forall (fun k =>
            is_Some (foldl (fun names row => <[key row := val row]> names) m rows !! k))
         (map key rows).
Proof.
  revert m. induction rows as [|r rows IH]; intros m; [constructor|].
  cbn. constructor; [|apply IH].
  apply foldl_insert_keeps. rewrite lookup_insert_eq. eauto.
Qed.

Lemma load_brainstem_labels_total :
  Forall (fun k => is_Some (load_brainstem_labels.2 !! k)) load_brainstem_labels.1.
Proof.
  apply Forall_forall. intros k Hk. cbn in Hk.
  repeat (apply elem_of_cons in Hk as [-> | Hk]; [vm_compute; eauto|]).
  apply elem_of_nil in Hk. destruct Hk.
Qed.

(** Every identifier of a loaded catalog has a name: the lookups of the
    list comprehension never raise [KeyError]. *)
Lemma load_atlas_labels_total (env : environment) (atlas_type : string)
    (atlas_labels : list Z) (atlas_labels_names : gmap Z string) :
  load_atlas_labels env atlas_type = inr (atlas_labels, atlas_labels_names) ->
  Forall (fun k => is_Some (atlas_labels_names !! k)) atlas_labels.
Proof.
  unfold load_atlas_labels.
  destruct (String.eqb atlas_type "neudorfer").
  { unfold load_neudorfer_atlas_labels, load.
    destruct (read_neudorfer_csv env _) as [df|]; [|discriminate].
    cbn. intros [= <- <-]. apply foldl_insert_total. }
  destruct (String.eqb atlas_type "tailrach").
  { unfold load_tailrach_atlas_labels, load.
    destruct (read_tailrach_csv env _) as [df|]; [|discriminate].
    cbn. intros [= <- <-]. apply foldl_insert_total. }
  destruct (String.eqb atlas_type "brainstem"); [|discriminate].
  intros H. injection H as <- <-. apply load_brainstem_labels_total.
Qed.

End Catalogs.

(** ** The loop *)

Section Loop.

Lemma getitem_names (names : gmap Z string) (ids : list Z) :
  Forall (fun k => is_Some (names !! k)) ids ->
  mapM (getitem names) ids = inr (map (fun k => default "" (names !! k)) ids).
Proof.
  intros H. apply mapM_result_ok. eapply Forall_impl; [exact H|].
  intros k [v Hv]. unfold getitem. rewrite Hv. reflexivity.
Qed.

Lemma zip_map_self {A B} (f : A -> B) (l : list A) :
  zip l (map f l) = map (fun x => (x, f x)) l.
Proof. induction l as [|x l IH]; [reflexivity|]. cbn. rewrite IH. reflexivity. Qed.

Lemma stats_loop_same_shape (lesion labels : Np.ndarray Z) (voxel_dims : list Q)
    (atlas_labels : list Z) (atlas_labels_names : gmap Z string) :
  Np.wf lesion -> Np.wf labels -> Np.shape lesion = Np.shape labels ->
  is_uint8 lesion ->
  Forall (fun k => is_Some (atlas_labels_names !! k)) atlas_labels ->
  stats_loop lesion labels voxel_dims atlas_labels atlas_labels_names
  = inr (records_of_catalog lesion labels (Np.prod voxel_dims)
           atlas_labels atlas_labels_names).
Proof.
  intros Hwl Hwa Hs Hu Hn. unfold stats_loop.
  rewrite (getitem_names _ _ Hn). cbn [mbind result_bind].
  rewrite zip_map_self.
  rewrite (mapM_result_ok _
             (fun p => record_of_counts p.2 (cells_with_label labels p.1)
                         (lesion_cells_with_label lesion labels p.1)
                         (Np.prod voxel_dims))).
  - unfold records_of_catalog. rewrite map_map. reflexivity.
  - apply Forall_forall. intros [region_id region_name] _.
    apply region_stats_same_shape; assumption.
Qed.

End Loop.

(** ** The name normalizer *)

Section NameNormalizer.

Lemma prefix_empty (s : string) : String.prefix "" s = true.
Proof. destruct s; reflexivity. Qed.

Lemma prefix_cons (a c : ascii) (old s : string) :
  String.prefix (String a old) (String c s) = Ascii.eqb c a && String.prefix old s.
Proof.
  cbn. destruct (Ascii.ascii_dec a c) as [->|Hne].
  - rewrite Ascii.eqb_refl. reflexivity.
  - destruct (Ascii.eqb_spec c a) as [->|_]; [contradiction|reflexivity].
Qed.

(** Replacing a one-character pattern by nothing deletes that character. *)
Lemma replace_char_remove (a : ascii) (s : string) :
  PyStr.replace (String a "") "" s = remove_char a s.
Proof.
  unfold PyStr.replace. induction s as [|c s IH]; [reflexivity|].
  cbn [PyStr.replace_from remove_char].
  rewrite prefix_cons, prefix_empty, andb_true_r.
  destruct (Ascii.eqb c a); cbn; rewrite IH; reflexivity.
Qed.

Lemma replace_from_scan (old new : string) (c : ascii) (s : string) :
  PyStr.replace_from old new 0 (String c s)
  = if String.prefix old (String c s)
    then new ++ PyStr.replace_from old new (String.length old - 1) s
    else String c (PyStr.replace_from old new 0 s).
Proof. reflexivity. Qed.

Lemma replace_from_skip (old new : string) (k : nat) (c : ascii) (s : string) :
  PyStr.replace_from old new (S k) (String c s) = PyStr.replace_from old new k s.
Proof. reflexivity. Qed.

Lemma remove_pair_scan (a b x y : ascii) (rest : string) :
  remove_pair a b (String x (String y rest))
  = if Ascii.eqb x a && Ascii.eqb y b then remove_pair a b rest
    else String x (remove_pair a b (String y rest)).
Proof. reflexivity. Qed.

(** Replacing a two-character pattern by nothing is the left-to-right scan
    that drops each occurrence met. *)
Lemma replace_pair_remove_bounded (a b : ascii) (n : nat) (s : string) :
  (String.length s <= n)%nat ->
  PyStr.replace_from (String a (String b "")) "" 0 s = remove_pair a b s.
Proof.
  revert s. induction n as [|n IH]; intros s Hn.
  - destruct s; [reflexivity | cbn in Hn; lia].
  - destruct s as [|x [|y rest]]; [reflexivity | |].
    + rewrite replace_from_scan, prefix_cons. cbn. rewrite andb_false_r. reflexivity.
    + rewrite replace_from_scan, remove_pair_scan.
      rewrite !prefix_cons, prefix_empty, andb_true_r.
      cbn in Hn.
      destruct (Ascii.eqb x a && Ascii.eqb y b).
      * cbn [String.length Nat.sub]. rewrite replace_from_skip.
        cbn [String.append]. apply IH. lia.
      * f_equal. apply IH. cbn. lia.
Qed.

Lemma replace_pair_remove (a b : ascii) (s : string) :
  PyStr.replace (String a (String b "")) "" s = remove_pair a b s.
Proof. apply (replace_pair_remove_bounded a b (String.length s)). lia. Qed.

(** Trimming only drops characters, and the last replacement leaves no
    asterisk. *)
Lemma lstrip_incl (c : ascii) (s : string) :
  In c (String.list_ascii_of_string (PyStr.lstrip s)) -> In c (String.list_ascii_of_string s).
Proof.
  induction s as [|x s IH]; [exact id|].
  cbn [PyStr.lstrip]. destruct (PyStr.isspace x); [|exact id].
  intros H. right. apply IH, H.
Qed.

Lemma rstrip_incl (c : ascii) (s : string) :
  In c (String.list_ascii_of_string (PyStr.rstrip s)) -> In c (String.list_ascii_of_string s).
Proof.
  induction s as [|x s IH]; [exact id|].
  cbn [PyStr.rstrip]. destruct (PyStr.rstrip s) as [|y r].
  - destruct (PyStr.isspace x); [intros []|].
    intros [H|[]]. left. exact H.
  - intros [H|H]; [left; exact H | right; apply IH, H].
Qed.

Lemma strip_incl (c : ascii) (s : string) :
  In c (String.list_ascii_of_string (PyStr.strip s)) -> In c (String.list_ascii_of_string s).
Proof. intros H. apply lstrip_incl, rstrip_incl, H. Qed.

Lemma remove_char_absent (a : ascii) (s : string) :
  ~ In a (String.list_ascii_of_string (remove_char a s)).
Proof.
  induction s as [|x s IH]; [exact id|].
  cbn [remove_char]. destruct (Ascii.eqb_spec x a) as [_|Hne]; [exact IH|].
  intros [H|H]; [exact (Hne H) | exact (IH H)].
Qed.

End NameNormalizer.

(** C8. The name normalizer [clean_label] is a total function on strings
    that agrees with the normalizer of the specification: a string that is
    [*.*.*.*.] once trimmed gives [Background]; any other string loses every
    occurrence of [*.], then every occurrence of [.*], then every remaining
    [*], and is trimmed, so that no asterisk is left in the result.  In
    particular [*.*.*.*.] gives [Background],
    [ CSTL.*] gives [CSTL] and [*.FPTR] gives [FPTR]. *)
Theorem clean_label_normalizes :
  (forall raw : string, clean_label raw = normalize_spec raw)
  /\ (forall raw : string,
        ~ In "*"%char (String.list_ascii_of_string (clean_label raw)))
  /\ clean_label "*.*.*.*." = "Background"
  /\ clean_label " CSTL.*" = "CSTL"
  /\ clean_label "*.FPTR" = "FPTR".
Proof.
  split; [|split; [|repeat split; reflexivity]].
  - intros raw. unfold clean_label, normalize_spec.
    rewrite replace_char_remove, !replace_pair_remove. reflexivity.
  - intros raw. unfold clean_label.
    destruct (String.eqb _ _).
    + cbn. intros H. repeat (destruct H as [H|H]; [discriminate H|]). exact H.
    + rewrite replace_char_remove. intros H.
      eapply remove_char_absent, strip_incl, H.
Qed.

(** ** Rational arithmetic of the volumes *)

Section Volumes.

Local Open Scope Q_scope.

Lemma Q_of_count_nonneg (n : nat) : 0 <= Q_of_count n.
Proof. unfold Q_of_count. change 0 with (inject_Z 0). rewrite <- Zle_Qle. lia. Qed.



Lemma prod_triple (a b c : Q) : Np.prod [a; b; c] == a * b * c.
Proof. unfold Np.prod. cbn. ring. Qed.

End Volumes.

(** ** The percentage in float32 *)

Section Percentage.


End Percentage.


(** ** Sums of counts over a catalog *)

Section Sums.

Lemma length_filter_split {A} (P Q R : A -> Prop)
    `{!forall x, Decision (P x)} `{!forall x, Decision (Q x)}
    `{!forall x, Decision (R x)} (l : list A) :
  (forall x, P x -> Q x -> False) ->
  (forall x, R x <-> P x \/ Q x) ->
  (length (filter P l) + length (filter Q l) = length (filter R l))%nat.
Proof.
  intros Hdisj Hunion. induction l as [|x l IH]; [reflexivity|].
  rewrite !filter_cons.
  destruct (decide (P x)) as [HP|HP], (decide (Q x)) as [HQ|HQ],
           (decide (R x)) as [HR|HR]; cbn [length];
    try lia; exfalso;
    first [ exact (Hdisj x HP HQ) | apply HR, Hunion; tauto
          | apply Hunion in HR; tauto ].
Qed.

Lemma sum_lesion_cells (lesion labels : Np.ndarray Z) (ids : list Z) :
  NoDup ids ->
  sum_list (map (lesion_cells_with_label lesion labels) ids)
  = lesion_cells_in_catalog lesion labels ids.
Proof.
  unfold lesion_cells_in_catalog, lesion_cells_with_label.
  induction 1 as [|k ids Hk _ IH]; cbn [map sum_list].
  - symmetry. apply length_zero_iff_nil.
    induction (zip _ _) as [|c l IHl]; [reflexivity|].
    rewrite filter_cons_False; [exact IHl|]. intros [_ H]. inversion H.
  - rewrite IH. apply length_filter_split.
    + intros c [_ ->] [_ Hin]. exact (Hk Hin).
    + intros c. rewrite elem_of_cons. tauto.
Qed.

Lemma sum_n_lesion_voxels (lesion labels : Np.ndarray Z) (vv : Q)
    (ids : list Z) (names : gmap Z string) :
  sum_list (map n_lesion_voxels (records_of_catalog lesion labels vv ids names))
  = sum_list (map (lesion_cells_with_label lesion labels) ids).
Proof.
  unfold records_of_catalog. rewrite map_map. reflexivity.
Qed.

End Sums.


(** ** Counting through the conversion to [np.uint8] *)

Section Conversion.

Lemma length_filter_fmap {A B} (f : A -> B) (P : B -> Prop)
    `{!forall y, Decision (P y)} (l : list A) :
  length (filter P (map f l)) = length (filter (fun x => P (f x)) l).
Proof.
  induction l as [|x l IH]; [reflexivity|].
  cbn [map]. rewrite !filter_cons.
  destruct (decide (P (f x))); cbn [length]; rewrite IH; reflexivity.
Qed.

Lemma cells_with_label_stored (a : Np.ndarray Q) (k : Z) :
  cells_with_label (Np.astype_uint8 a) k
  = length (filter (fun v => Np.to_uint8 v = k) (Np.data a)).
Proof. unfold cells_with_label. cbn [Np.astype_uint8 Np.data]. apply length_filter_fmap. Qed.

Lemma lesion_cells_with_label_stored (l a : Np.ndarray Q) (k : Z) :
  lesion_cells_with_label (Np.astype_uint8 l) (Np.astype_uint8 a) k
  = length (filter (fun c => Np.to_uint8 c.1 ≠ 0%Z ∧ Np.to_uint8 c.2 = k)
              (zip (Np.data l) (Np.data a))).
Proof.
  unfold lesion_cells_with_label. cbn [Np.astype_uint8 Np.data].
  generalize (Np.data a) as la. induction (Np.data l) as [|x ld IH]; intros la;
    [reflexivity|].
  destruct la as [|y la]; [reflexivity|].
  cbn [map zip_with]. rewrite !filter_cons. cbn [fst snd].
  destruct (decide (Np.to_uint8 x ≠ 0%Z ∧ Np.to_uint8 y = k));
    cbn [length]; rewrite IH; reflexivity.
Qed.

Lemma length_filter_iff {A} (P Q : A -> Prop)
    `{!forall x, Decision (P x)} `{!forall x, Decision (Q x)} (l : list A) :
  (forall x, P x <-> Q x) ->
  length (filter P l) = length (filter Q l).
Proof.
  intros Hiff. induction l as [|x l IH]; [reflexivity|].
  rewrite !filter_cons.
  destruct (decide (P x)) as [HP|HP], (decide (Q x)) as [HQ|HQ];
    cbn [length]; try lia; exfalso; apply Hiff in HP || apply Hiff in HQ;
    contradiction.
Qed.

Lemma filter_none {A} (P : A -> Prop) `{!forall x, Decision (P x)} (l : list A) :
  Forall (fun x => ~ P x) l -> filter P l = [].
Proof.
  induction 1 as [|x l Hx _ IH]; [reflexivity|].
  rewrite filter_cons_False by exact Hx. exact IH.
Qed.

Lemma filter_all {A} (P : A -> Prop) `{!forall x, Decision (P x)} (l : list A) :
  Forall P l -> filter P l = l.
Proof.
  induction 1 as [|x l Hx _ IH]; [reflexivity|].
  rewrite filter_cons_True by exact Hx. rewrite IH. reflexivity.
Qed.

Lemma to_uint8_range (q : Q) : (0 <= Np.to_uint8 q < 256)%Z.
Proof.
  unfold Np.to_uint8. cbn zeta.
  destruct (_ && _); [apply Z.mod_pos_bound|]; lia.
Qed.

(** A stored value equal to 5 is 5 after the conversion. *)
Lemma to_uint8_five (q : Q) : (q == 5)%Q -> Np.to_uint8 q = 5%Z.
Proof.
  unfold Qeq, Np.to_uint8, Np.trunc. cbn [Qnum Qden inject_Z]. intros H.
  rewrite Z.mul_1_r in H. rewrite H, Z.quot_mul by lia. reflexivity.
Qed.

End Conversion.

(** ** Runs on valid inputs

    Both images load, their arrays are well formed and of one shape, and
    the catalog of the selected atlas type loads. *)

Section ValidRun.

Variable env : environment.
Variables lesion_mask_path warped_atlas_mask_path atlas_type : string.
Variables lesion_mask warped_atlas_mask : nifti.
Variable atlas_labels : list Z.
Variable atlas_labels_names : gmap Z string.

Hypothesis lesion_loaded : nib_load env lesion_mask_path = Some lesion_mask.
Hypothesis atlas_loaded :
  nib_load env warped_atlas_mask_path = Some warped_atlas_mask.
Hypothesis lesion_wf : Np.wf (get_fdata lesion_mask).
Hypothesis atlas_wf : Np.wf (get_fdata warped_atlas_mask).
Hypothesis same_shape :
  Np.shape (get_fdata lesion_mask) = Np.shape (get_fdata warped_atlas_mask).
Hypothesis catalog_loaded :
  load_atlas_labels env atlas_type = inr (atlas_labels, atlas_labels_names).

Local Abbreviation lesion_mask_data := (Np.astype_uint8 (get_fdata lesion_mask)).
Local Abbreviation warped_atlas_mask_data :=
  (Np.astype_uint8 (get_fdata warped_atlas_mask)).
Local Abbreviation voxel_volume := (Np.prod (get_zooms lesion_mask)).
Lemma compute_stats_atlas_valid :
  compute_stats_atlas env lesion_mask_path warped_atlas_mask_path atlas_type
  = inr (records_of_catalog lesion_mask_data warped_atlas_mask_data
               voxel_volume atlas_labels atlas_labels_names).
Proof.
  unfold compute_stats_atlas, load.
  rewrite lesion_loaded, atlas_loaded. cbn [mbind result_bind mret result_ret].
  rewrite catalog_loaded. cbn [mbind result_bind].
  apply stats_loop_same_shape.
  - apply astype_uint8_wf, lesion_wf.
  - apply astype_uint8_wf, atlas_wf.
  - exact same_shape.
  - apply astype_uint8_range.
  - eapply load_atlas_labels_total, catalog_loaded.
Qed.

Lemma records_of_catalog_lookup (lesion labels : Np.ndarray Z) (vv : Q) (i : nat)
    (region_id : Z) :
  atlas_labels !! i = Some region_id ->
  records_of_catalog lesion labels vv atlas_labels atlas_labels_names !! i
  = Some (record_of_counts (default "" (atlas_labels_names !! region_id))
            (cells_with_label labels region_id)
            (lesion_cells_with_label lesion labels region_id) vv).
Proof.
  intros Hi. unfold records_of_catalog. rewrite list_lookup_fmap, Hi. reflexivity.
Qed.

Lemma records_of_catalog_elem (lesion labels : Np.ndarray Z) (vv : Q)
    (r : region_stat) :
  r ∈ records_of_catalog lesion labels vv atlas_labels atlas_labels_names ->
  exists region_id,
    region_id ∈ atlas_labels /\
    r = record_of_counts (default "" (atlas_labels_names !! region_id))
          (cells_with_label labels region_id)
          (lesion_cells_with_label lesion labels region_id) vv.
Proof.
  unfold records_of_catalog. intros H.
  apply list_elem_of_fmap in H as (region_id & -> & Hin). eauto.
Qed.

(** C1 (amended). The counts are taken on the two grids after their
    conversion to 8-bit unsigned integers.  For every catalog entry, the
    record computed has [region_voxel_count] equal to the number of grid
    cells where the converted atlas volume equals the region id,
    [lesion_voxel_count] equal to the number of grid cells where the
    converted lesion volume is nonzero and the converted atlas volume
    equals the region id, and each of the two volumes equal to its voxel
    count multiplied by the scalar voxel volume. *)
Theorem region_counts_and_volumes :
  exists records,
    compute_stats_atlas env lesion_mask_path warped_atlas_mask_path atlas_type
    = inr records /\
    forall (i : nat) (region_id : Z),
      atlas_labels !! i = Some region_id ->
      exists r,
        records !! i = Some r /\
        n_label_voxels r
          = cells_with_label (Np.astype_uint8 (get_fdata warped_atlas_mask))
              region_id /\
        n_lesion_voxels r
          = lesion_cells_with_label
              (Np.astype_uint8 (get_fdata lesion_mask))
              (Np.astype_uint8 (get_fdata warped_atlas_mask)) region_id /\
        label_volume r
          = (Q_of_count (n_label_voxels r)
             * Np.prod (get_zooms lesion_mask))%Q /\
        lesion_volume r
          = (Q_of_count (n_lesion_voxels r)
             * Np.prod (get_zooms lesion_mask))%Q.
Proof.
  eexists. split; [exact compute_stats_atlas_valid|].
  intros i region_id Hi. eexists. split.
  - apply records_of_catalog_lookup, Hi.
  - repeat split; reflexivity.
Qed.


(** C3 (amended). The counts are taken on the two grids after their
    conversion to 8-bit unsigned integers.  With unique region ids in the
    catalog, the sum of [n_lesion_voxels] over all output records equals
    the number of grid cells whose converted lesion value is nonzero and
    whose converted atlas label appears as a region id in the catalog. *)
Theorem lesion_voxels_sum :
  NoDup atlas_labels ->
  exists records,
    compute_stats_atlas env lesion_mask_path warped_atlas_mask_path atlas_type
    = inr records /\
    sum_list (map n_lesion_voxels records)
    = lesion_cells_in_catalog (Np.astype_uint8 (get_fdata lesion_mask))
        (Np.astype_uint8 (get_fdata warped_atlas_mask)) atlas_labels.
Proof.
  intros Hnodup. eexists. split; [exact compute_stats_atlas_valid|].
  rewrite sum_n_lesion_voxels. apply sum_lesion_cells, Hnodup.
Qed.

(** C4. On valid inputs the computation emits exactly one record per
    catalog entry, whatever the entry (background, regions without a voxel
    in the atlas volume), and the records come in catalog iteration order:
    the record at position [i] carries the name of the entry at position
    [i]. *)
Theorem one_record_per_entry :
  exists records,
    compute_stats_atlas env lesion_mask_path warped_atlas_mask_path atlas_type
    = inr records /\
    length records = length atlas_labels /\
    forall (i : nat) (region_id : Z),
      atlas_labels !! i = Some region_id ->
      exists r,
        records !! i = Some r /\
        atlas_labels_names !! region_id = Some (atlas_label r) /\
        n_label_voxels r = cells_with_label warped_atlas_mask_data region_id.
Proof.
  eexists. split; [exact compute_stats_atlas_valid|]. split.
  - unfold records_of_catalog. apply length_map.
  - intros i region_id Hi. eexists. split.
    + apply records_of_catalog_lookup, Hi.
    + split; [|reflexivity]. cbn [record_of_counts atlas_label].
      pose proof (load_atlas_labels_total _ _ _ _ catalog_loaded) as Htot.
      rewrite Forall_forall in Htot.
      destruct (Htot region_id) as [name Hname].
      * eapply list_elem_of_lookup_2, Hi.
      * rewrite Hname. reflexivity.
Qed.

(** C7 (amended). The code builds no geometry object and validates no
    spacing: whatever the spacing tuple of the lesion image (any number of
    components, of any sign), the run succeeds; the voxel volume is the
    product of all the components of the tuple, which is the product of the
    three components when there are three, and it is the factor that turns
    each voxel count into a volume. *)
Theorem voxel_volume_any_spacing :
  exists records,
    compute_stats_atlas env lesion_mask_path warped_atlas_mask_path atlas_type
    = inr records /\
    (forall r, r ∈ records ->
       label_volume r
         = (Q_of_count (n_label_voxels r) * Np.prod (get_zooms lesion_mask))%Q
       /\ lesion_volume r
         = (Q_of_count (n_lesion_voxels r) * Np.prod (get_zooms lesion_mask))%Q)
    /\ (forall a b c : Q,
          get_zooms lesion_mask = [a; b; c] ->
          (Np.prod (get_zooms lesion_mask) == a * b * c)%Q).
Proof.
  eexists. split; [exact compute_stats_atlas_valid|]. split.
  - intros r Hr. apply records_of_catalog_elem in Hr as (region_id & _ & ->).
    split; reflexivity.
  - intros a b c ->. apply prod_triple.
Qed.

(** C10 (amended). Both grids are converted to 8-bit unsigned integers
    before the loop.  A stored value is truncated to an integer; when that
    integer fits a signed 32-bit integer it is reduced modulo 256, and
    otherwise the converted value is 0.  The region id is compared as it
    is, so a region id matches exactly the grid cells whose converted atlas
    value equals the id: for an id between 1 and 255 these are the cells
    whose truncated value fits 32 bits and is congruent to the id modulo
    256, and an id of 256 or more (or a negative one) matches no cell at
    all.  A lesion value whose converted value is 0 (once truncated, a
    multiple of 256 or an integer beyond 32 bits) counts as no lesion. *)
Theorem uint8_conversion_matching :
  (forall v : Q,
     (-2147483648 <= Np.trunc v < 2147483648)%Z ->
     Np.to_uint8 v = (Np.trunc v mod 256)%Z)
  /\ (forall v : Q,
        (Np.trunc v < -2147483648 \/ 2147483648 <= Np.trunc v)%Z ->
        Np.to_uint8 v = 0%Z)
  /\ exists records,
       compute_stats_atlas env lesion_mask_path warped_atlas_mask_path
         atlas_type = inr records /\
       forall (i : nat) (region_id : Z),
         atlas_labels !! i = Some region_id ->
         exists r,
           records !! i = Some r /\
           n_label_voxels r
             = length (filter (fun v => Np.to_uint8 v = region_id)
                         (Np.data (get_fdata warped_atlas_mask))) /\
           n_lesion_voxels r
             = length (filter (fun c => Np.to_uint8 c.1 ≠ 0%Z
                                        ∧ Np.to_uint8 c.2 = region_id)
                         (zip (Np.data (get_fdata lesion_mask))
                              (Np.data (get_fdata warped_atlas_mask)))) /\
           ((0 < region_id < 256)%Z ->
              n_label_voxels r
                = length (filter
                            (fun v =>
                               (-2147483648 <= Np.trunc v < 2147483648)%Z
                               ∧ (Np.trunc v mod 256 = region_id mod 256)%Z)
                            (Np.data (get_fdata warped_atlas_mask)))) /\
           ((region_id < 0 \/ 256 <= region_id)%Z ->
              n_label_voxels r = 0%nat /\ n_lesion_voxels r = 0%nat).
Proof.
  assert (Hin : forall v : Q,
            (-2147483648 <= Np.trunc v < 2147483648)%Z ->
            Np.to_uint8 v = (Np.trunc v mod 256)%Z).
  { intros v [Hlo Hhi]. unfold Np.to_uint8. cbn zeta.
    apply Z.leb_le in Hlo. apply Z.ltb_lt in Hhi. rewrite Hlo, Hhi.
    reflexivity. }
  assert (Hout : forall v : Q,
            (Np.trunc v < -2147483648 \/ 2147483648 <= Np.trunc v)%Z ->
            Np.to_uint8 v = 0%Z).
  { intros v Hv. unfold Np.to_uint8. cbn zeta.
    destruct (Z.leb_spec (-2147483648) (Np.trunc v)) as [Hlo|Hlo];
      [|reflexivity].
    destruct (Z.ltb_spec (Np.trunc v) 2147483648) as [Hhi|Hhi];
      [lia | reflexivity]. }
  split; [exact Hin|]. split; [exact Hout|].
  eexists. split; [exact compute_stats_atlas_valid|].
  intros i region_id Hi. eexists. split.
  { apply records_of_catalog_lookup, Hi. }
  cbn [record_of_counts n_label_voxels n_lesion_voxels].
  rewrite cells_with_label_stored, lesion_cells_with_label_stored.
  split; [reflexivity|]. split; [reflexivity|]. split.
  - intros Hr. apply length_filter_iff. intros v.
    rewrite (Z.mod_small region_id) by lia.
    destruct (decide (-2147483648 <= Np.trunc v < 2147483648)%Z) as [Hw|Hw].
    + rewrite (Hin v Hw). tauto.
    + rewrite (Hout v) by lia. split; [lia | tauto].
  - intros Hr. split.
    + rewrite filter_none; [reflexivity|].
      apply Forall_forall. intros v _ Hv. pose proof (to_uint8_range v). lia.
    + rewrite filter_none; [reflexivity|].
      apply Forall_forall. intros c _ [_ Hv].
      pose proof (to_uint8_range c.2). lia.
Qed.

End ValidRun.

(** ** Shapes that differ, selectors that are not recognized *)

Section Failures.

Lemma mapM_result_exists {A B} (f : A -> result B) (l : list A) :
  Forall (fun x => exists y, f x = inr y) l ->
  exists ys, mapM f l = inr ys /\ length ys = length l.
Proof.
  induction 1 as [|x l [y Hy] _ (ys & IH & Hlen)].
  - exists []. split; reflexivity.
  - exists (y :: ys). cbn. rewrite Hy. cbn. rewrite IH. cbn.
    split; [reflexivity | rewrite Hlen; reflexivity].
Qed.

Lemma mapM_result_inl {A B} (f : A -> result B) (l : list A) (e : error) :
  mapM f l = inl e -> exists x, x ∈ l /\ f x = inl e.
Proof.
  induction l as [|x l IH]; [discriminate|].
  cbn. destruct (f x) as [e'|y] eqn:Hx; cbn.
  - intros [= ->]. exists x. split; [left | exact Hx].
  - destruct (mapM f l) as [e'|ys]; cbn; [|discriminate].
    intros [= ->]. destruct (IH eq_refl) as (x' & Hin & Hx').
    exists x'. split; [right; exact Hin | exact Hx'].
Qed.

Lemma region_stats_not_broadcast (lesion labels : Np.ndarray Z)
    (voxel_dims : list Q) (region_id : Z) (region_name : string) :
  Np.broadcast_shapes (Np.shape lesion) (Np.shape labels) = None ->
  region_stats lesion labels voxel_dims region_id region_name
  = inl (ValueError "operands could not be broadcast together").
Proof.
  intros Hb. unfold region_stats, Np.multiply.
  cbn [Np.set_where Np.zeros_like Np.shape]. rewrite Hb. reflexivity.
Qed.

Lemma region_stats_broadcast (lesion labels : Np.ndarray Z)
    (voxel_dims : list Q) (region_id : Z) (region_name : string) (s : list nat) :
  Np.broadcast_shapes (Np.shape lesion) (Np.shape labels) = Some s ->
  exists r, region_stats lesion labels voxel_dims region_id region_name = inr r.
Proof.
  intros Hb. unfold region_stats, Np.multiply.
  cbn [Np.set_where Np.zeros_like Np.shape]. rewrite Hb.
  eexists. reflexivity.
Qed.

Lemma region_stats_error (lesion labels : Np.ndarray Z)
    (voxel_dims : list Q) (region_id : Z) (region_name : string) (e : error) :
  region_stats lesion labels voxel_dims region_id region_name = inl e ->
  e = ValueError "operands could not be broadcast together".
Proof.
  unfold region_stats, Np.multiply.
  destruct (Np.broadcast_shapes _ _); cbn; [discriminate|].
  intros [= <-]. reflexivity.
Qed.

Lemma stats_loop_error (lesion labels : Np.ndarray Z) (voxel_dims : list Q)
    (ids : list Z) (names : gmap Z string) (e : error) :
  stats_loop lesion labels voxel_dims ids names = inl e ->
  (exists k, e = KeyError k)
  \/ e = ValueError "operands could not be broadcast together".
Proof.
  unfold stats_loop.
  destruct (mapM (getitem names) ids) as [e'|region_names] eqn:Hnames; cbn.
  - intros [= ->]. left.
    apply mapM_result_inl in Hnames as (k & _ & Hk).
    unfold getitem in Hk. destruct (names !! k); [discriminate|].
    injection Hk as <-. eauto.
  - intros H. right.
    apply mapM_result_inl in H as ([region_id region_name] & _ & H).
    eapply region_stats_error, H.
Qed.

Lemma load_atlas_labels_unsupported (env : environment) (atlas_type : string) :
  atlas_type ≠ "neudorfer" -> atlas_type ≠ "tailrach" ->
  atlas_type ≠ "brainstem" ->
  load_atlas_labels env atlas_type = inl (Exception "Something went wrong!").
Proof.
  intros H1 H2 H3. unfold load_atlas_labels.
  apply String.eqb_neq in H1, H2, H3. rewrite H1, H2, H3. reflexivity.
Qed.

Lemma load_atlas_labels_error (env : environment) (atlas_type : string)
    (msg : string) :
  load_atlas_labels env atlas_type = inl (Exception msg) ->
  atlas_type ≠ "neudorfer" /\ atlas_type ≠ "tailrach"
  /\ atlas_type ≠ "brainstem".
Proof.
  unfold load_atlas_labels.
  destruct (String.eqb_spec atlas_type "neudorfer") as [_|H1].
  { unfold load_neudorfer_atlas_labels, load.
    destruct (read_neudorfer_csv env _); discriminate. }
  destruct (String.eqb_spec atlas_type "tailrach") as [_|H2].
  { unfold load_tailrach_atlas_labels, load.
    destruct (read_tailrach_csv env _); discriminate. }
  destruct (String.eqb_spec atlas_type "brainstem") as [_|H3]; [discriminate|].
  auto.
Qed.

End Failures.

Section LoadedRun.

Variable env : environment.
Variables lesion_mask_path warped_atlas_mask_path atlas_type : string.
Variables lesion_mask warped_atlas_mask : nifti.

Hypothesis lesion_loaded : nib_load env lesion_mask_path = Some lesion_mask.
Hypothesis atlas_loaded :
  nib_load env warped_atlas_mask_path = Some warped_atlas_mask.

Lemma compute_stats_atlas_loaded :
  compute_stats_atlas env lesion_mask_path warped_atlas_mask_path atlas_type
  = (load_atlas_labels env atlas_type ≫= fun catalog =>
         stats_loop (Np.astype_uint8 (get_fdata lesion_mask))
           (Np.astype_uint8 (get_fdata warped_atlas_mask))
           (get_zooms lesion_mask) catalog.1 catalog.2).
Proof.
  unfold compute_stats_atlas, load. rewrite lesion_loaded, atlas_loaded.
  cbn [mbind result_bind mret result_ret].
  destruct (load_atlas_labels env atlas_type) as [e|[ids names]]; reflexivity.
Qed.

(** C5 (amended). The code has no shape check of its own; a difference of
    shapes is met by numpy when the lesion array is multiplied by the mask
    of the first catalog entry.  With a catalog that loads: if the two
    shapes cannot be broadcast together and the catalog has at least one
    entry, the run fails with numpy's [ValueError] and returns no record; if
    the two shapes broadcast (as equal shapes do, and as shapes that differ
    only on axes of length 1 do), the run raises nothing and returns one
    record per catalog entry; with an empty catalog it returns the empty
    list. *)
Theorem shape_mismatch_behaviour (atlas_labels : list Z)
    (atlas_labels_names : gmap Z string) :
  load_atlas_labels env atlas_type = inr (atlas_labels, atlas_labels_names) ->
  (Np.broadcast_shapes (Np.shape (get_fdata lesion_mask))
     (Np.shape (get_fdata warped_atlas_mask)) = None ->
   atlas_labels ≠ [] ->
   compute_stats_atlas env lesion_mask_path warped_atlas_mask_path atlas_type
   = inl (ValueError "operands could not be broadcast together"))
  /\ (forall s,
        Np.broadcast_shapes (Np.shape (get_fdata lesion_mask))
          (Np.shape (get_fdata warped_atlas_mask)) = Some s ->
        exists records,
          compute_stats_atlas env lesion_mask_path warped_atlas_mask_path atlas_type
    = inr records /\ length records = length atlas_labels)
  /\ (atlas_labels = [] ->
      compute_stats_atlas env lesion_mask_path warped_atlas_mask_path atlas_type
      = inr []).
Proof.
  intros Hcat. rewrite compute_stats_atlas_loaded, Hcat.
  cbn [mbind result_bind fst snd]. unfold stats_loop.
  rewrite (getitem_names _ _ (load_atlas_labels_total _ _ _ _ Hcat)).
  cbn [mbind result_bind]. rewrite zip_map_self.
  split; [|split].
  - intros Hb Hne. destruct atlas_labels as [|region_id ids]; [contradiction|].
    cbn [map]. apply mapM_result_fail.
    apply region_stats_not_broadcast. exact Hb.
  - intros s Hb.
    match goal with
    | |- exists records, mapM ?f ?l = _ /\ _ =>
        destruct (mapM_result_exists f l) as (records & Hrun & Hlen)
    end.
    + apply Forall_forall. intros [region_id region_name] _.
      eapply region_stats_broadcast. exact Hb.
    + exists records. split; [exact Hrun|].
      rewrite Hlen. apply length_map.
  - intros ->. reflexivity.
Qed.

End LoadedRun.

(** C6 (amended). The selector has exactly three recognized values,
    [neudorfer], [tailrach] and [brainstem].  With any other value the
    computation fails and returns no record, but the selector is looked at
    only after both images have been loaded and converted: a lesion image
    that is missing is reported first, then an atlas image that is missing,
    and once both images are loaded the failure is the exception of the
    selector dispatch, whatever the grids hold, before the loop over the
    catalog.  That exception is raised for no recognized selector. *)
Theorem unsupported_selector_outcome (env : environment)
    (lesion_mask_path warped_atlas_mask_path atlas_type : string) :
  (atlas_type ≠ "neudorfer" -> atlas_type ≠ "tailrach" ->
   atlas_type ≠ "brainstem" ->
   compute_stats_atlas env lesion_mask_path warped_atlas_mask_path atlas_type
   = inl (match nib_load env lesion_mask_path,
                nib_load env warped_atlas_mask_path with
          | None, _ => FileNotFoundError lesion_mask_path
          | Some _, None => FileNotFoundError warped_atlas_mask_path
          | Some _, Some _ => Exception "Something went wrong!"
          end))
  /\ (compute_stats_atlas env lesion_mask_path warped_atlas_mask_path
        atlas_type = inl (Exception "Something went wrong!") ->
      atlas_type ≠ "neudorfer" /\ atlas_type ≠ "tailrach"
      /\ atlas_type ≠ "brainstem").
Proof.
  unfold compute_stats_atlas, load. split.
  - intros H1 H2 H3.
    destruct (nib_load env lesion_mask_path) as [lesion_mask|];
      cbn [mbind result_bind mret result_ret]; [|reflexivity].
    destruct (nib_load env warped_atlas_mask_path) as [warped_atlas_mask|];
      cbn [mbind result_bind mret result_ret]; [|reflexivity].
    rewrite load_atlas_labels_unsupported by assumption. reflexivity.
  - destruct (nib_load env lesion_mask_path) as [lesion_mask|];
      cbn [mbind result_bind mret result_ret]; [|discriminate].
    destruct (nib_load env warped_atlas_mask_path) as [warped_atlas_mask|];
      cbn [mbind result_bind mret result_ret]; [|discriminate].
    destruct (load_atlas_labels env atlas_type) as [e|[ids names]] eqn:Hcat;
      cbn [mbind result_bind].
    + intros [= ->]. eapply load_atlas_labels_error, Hcat.
    + intros H. apply stats_loop_error in H as [[k H]|H]; discriminate.
Qed.

(** ** The brainstem catalog on an atlas that is 5 everywhere *)

Section Brainstem.

Variable env : environment.
Variables lesion_mask_path warped_atlas_mask_path : string.
Variables lesion_mask warped_atlas_mask : nifti.

Hypothesis lesion_loaded : nib_load env lesion_mask_path = Some lesion_mask.
Hypothesis atlas_loaded :
  nib_load env warped_atlas_mask_path = Some warped_atlas_mask.
Hypothesis lesion_wf : Np.wf (get_fdata lesion_mask).
Hypothesis atlas_wf : Np.wf (get_fdata warped_atlas_mask).
Hypothesis same_shape :
  Np.shape (get_fdata lesion_mask) = Np.shape (get_fdata warped_atlas_mask).
Hypothesis atlas_is_five :
  Forall (fun v => (v == 5)%Q) (Np.data (get_fdata warped_atlas_mask)).

Lemma cells_with_label_five (region_id : Z) :
  cells_with_label (Np.astype_uint8 (get_fdata warped_atlas_mask)) region_id
  = if decide (region_id = 5%Z)
    then Np.size_of (Np.shape (get_fdata warped_atlas_mask)) else 0%nat.
Proof.
  rewrite cells_with_label_stored. destruct (decide (region_id = 5%Z)) as [->|Hne].
  - rewrite filter_all; [exact atlas_wf|].
    eapply Forall_impl; [exact atlas_is_five|]. apply to_uint8_five.
  - rewrite filter_none; [reflexivity|].
    eapply Forall_impl; [exact atlas_is_five|].
    intros v Hv Heq. apply to_uint8_five in Hv. congruence.
Qed.

(** C9. The brainstem catalog yields the consecutive region ids 0 to 23,
    each bound to its built-in code string.  Run with this catalog on an
    atlas volume that is 5 everywhere, the computation returns 24 records
    named after the 24 codes in order; the record of region id 5, named
    [ICPMCL_Atlas], has a region voxel count equal to the number of grid
    cells, and every other record has a region voxel count of 0. *)
Theorem brainstem_uniform_atlas :
  load_brainstem_labels.1
    = [0; 1; 2; 3; 4; 5; 6; 7; 8; 9; 10; 11; 12; 13; 14; 15; 16; 17; 18; 19;
       20; 21; 22; 23]%Z
  /\ map (fun region_id => load_brainstem_labels.2 !! region_id)
         load_brainstem_labels.1
     = map Some
         [ "Not_in_Atlas"; "CSTL_Atlas"; "CSTR_Atlas"; "FPTL_Atlas";
           "FPTR_Atlas"; "ICPMCL_Atlas"; "ICPMCR_Atlas"; "ICPVCL_Atlas";
           "ICPVCR_Atlas"; "LLL_Atlas"; "LLR_Atlas"; "MCP_Atlas"; "MLL_Atlas";
           "MLR_Atlas"; "POTPTL_Atlas"; "POTPTR_Atlas"; "SCPCRL_Atlas";
           "SCPCRR_Atlas"; "SCPCTL_Atlas"; "SCPCTR_Atlas"; "SCPSCL_Atlas";
           "SCPSCR_Atlas"; "STTL_Atlas"; "STTR_Atlas" ]
  /\ exists records,
       compute_stats_atlas env lesion_mask_path warped_atlas_mask_path
         "brainstem" = inr records
       /\ map atlas_label records
          = [ "Not_in_Atlas"; "CSTL_Atlas"; "CSTR_Atlas"; "FPTL_Atlas";
              "FPTR_Atlas"; "ICPMCL_Atlas"; "ICPMCR_Atlas"; "ICPVCL_Atlas";
              "ICPVCR_Atlas"; "LLL_Atlas"; "LLR_Atlas"; "MCP_Atlas";
              "MLL_Atlas"; "MLR_Atlas"; "POTPTL_Atlas"; "POTPTR_Atlas";
              "SCPCRL_Atlas"; "SCPCRR_Atlas"; "SCPCTL_Atlas"; "SCPCTR_Atlas";
              "SCPSCL_Atlas"; "SCPSCR_Atlas"; "STTL_Atlas"; "STTR_Atlas" ]
       /\ map n_label_voxels records
          = <[5%nat := Np.size_of (Np.shape (get_fdata warped_atlas_mask))]>
              (replicate 24 0%nat).
Proof.
  split; [reflexivity|]. split; [vm_compute; reflexivity|].
  eexists. split.
  { apply (compute_stats_atlas_valid env lesion_mask_path warped_atlas_mask_path
             "brainstem" lesion_mask warped_atlas_mask
             load_brainstem_labels.1 load_brainstem_labels.2);
      first [assumption | reflexivity]. }
  unfold records_of_catalog. rewrite !map_map. split.
  - vm_compute. reflexivity.
  - cbn [record_of_counts n_label_voxels].
    erewrite map_ext; [|intros region_id; apply cells_with_label_five].
    reflexivity.
Qed.

End Brainstem.

(** ** Runs on the sample inputs *)

Lemma region_counts_and_volumes_witness :
  exists records,
    compute_stats_atlas Sample.env "lesion.nii.gz" "atlas.nii.gz" "tailrach"
    = inr records /\
    forall (i : nat) (region_id : Z),
      Sample.tailrach_labels !! i = Some region_id ->
      exists r,
        records !! i = Some r /\
        n_label_voxels r
          = cells_with_label (Np.astype_uint8 (get_fdata Sample.atlas))
              region_id /\
        n_lesion_voxels r
          = lesion_cells_with_label
              (Np.astype_uint8 (get_fdata Sample.lesion))
              (Np.astype_uint8 (get_fdata Sample.atlas)) region_id /\
        label_volume r
          = (Q_of_count (n_label_voxels r)
             * Np.prod (get_zooms Sample.lesion))%Q /\
        lesion_volume r
          = (Q_of_count (n_lesion_voxels r)
             * Np.prod (get_zooms Sample.lesion))%Q.
Proof.
  apply (region_counts_and_volumes Sample.env "lesion.nii.gz" "atlas.nii.gz"
           "tailrach" Sample.lesion Sample.atlas Sample.tailrach_labels
           Sample.tailrach_names); reflexivity.
Defined.

Lemma lesion_voxels_sum_witness :
  exists records,
    compute_stats_atlas Sample.env "lesion.nii.gz" "atlas.nii.gz" "tailrach"
    = inr records /\
    sum_list (map n_lesion_voxels records)
    = lesion_cells_in_catalog (Np.astype_uint8 (get_fdata Sample.lesion))
        (Np.astype_uint8 (get_fdata Sample.atlas)) Sample.tailrach_labels.
Proof.
  apply (lesion_voxels_sum Sample.env "lesion.nii.gz" "atlas.nii.gz"
           "tailrach" Sample.lesion Sample.atlas Sample.tailrach_labels
           Sample.tailrach_names); try reflexivity.
  apply (bool_decide_unpack _). vm_compute. exact I.
Defined.

Lemma one_record_per_entry_witness :
  exists records,
    compute_stats_atlas Sample.env "lesion.nii.gz" "atlas.nii.gz" "tailrach"
    = inr records /\
    length records = length Sample.tailrach_labels /\
    forall (i : nat) (region_id : Z),
      Sample.tailrach_labels !! i = Some region_id ->
      exists r,
        records !! i = Some r /\
        Sample.tailrach_names !! region_id = Some (atlas_label r) /\
        n_label_voxels r
          = cells_with_label (Np.astype_uint8 (get_fdata Sample.atlas))
              region_id.
Proof.
  apply (one_record_per_entry Sample.env "lesion.nii.gz" "atlas.nii.gz"
           "tailrach" Sample.lesion Sample.atlas Sample.tailrach_labels
           Sample.tailrach_names); reflexivity.
Defined.

(** C1, counterexample.  One cell of the atlas stores the label 261 and
    the catalog has an entry 261, but the record of that entry counts no
    voxel: the cell was converted to 5. *)
Lemma stored_label_not_counted :
  length (filter (fun v => (v == 261)%Q) (Np.data (get_fdata Sample.atlas)))
  = 1%nat
  /\ exists records r,
       compute_stats_atlas Sample.env "lesion.nii.gz" "atlas.nii.gz"
         "tailrach" = inr records
       /\ Sample.tailrach_labels !! 2%nat = Some 261%Z
       /\ records !! 2%nat = Some r
       /\ n_label_voxels r = 0%nat.
Proof.
  split; [reflexivity|].
  eexists _, _. split; [vm_compute; reflexivity|].
  repeat split; reflexivity.
Qed.



(** C3, counterexample.  Two cells have a nonzero lesion value and store an
    atlas label of the catalog (1 and 261), but the lesion voxel counts of
    the records add up to 1. *)
Lemma stored_catalog_labels_not_summed :
  length (filter (fun c => ~ (c.1 == 0)%Q
                           /\ Exists (fun k => (c.2 == inject_Z k)%Q)
                                Sample.tailrach_labels)
            (zip (Np.data (get_fdata Sample.lesion))
                 (Np.data (get_fdata Sample.atlas)))) = 2%nat
  /\ NoDup Sample.tailrach_labels
  /\ exists records,
       compute_stats_atlas Sample.env "lesion.nii.gz" "atlas.nii.gz"
         "tailrach" = inr records
       /\ sum_list (map n_lesion_voxels records) = 1%nat.
Proof.
  split; [vm_compute; reflexivity|]. split.
  - apply (bool_decide_unpack _). vm_compute. exact I.
  - eexists. split; [vm_compute; reflexivity|]. reflexivity.
Qed.

(** C5, counterexample.  A lesion mask of shape (1, 1, 1) and an atlas of
    shape (2, 1, 1) differ in shape, and the run raises nothing: it returns
    the three records of the catalog. *)
Lemma shape_mismatch_not_raised :
  Np.shape (get_fdata Sample.lesion_1) ≠ Np.shape (get_fdata Sample.atlas_2)
  /\ exists records,
       compute_stats_atlas Sample.env "lesion_1.nii.gz" "atlas_2.nii.gz"
         "tailrach" = inr records
       /\ map atlas_label records = ["Unknown"; "Region A"; "Region B"]
       /\ map n_lesion_voxels records = [0; 2; 0]%nat.
Proof.
  split; [discriminate|].
  eexists. split; [vm_compute; reflexivity|].
  split; reflexivity.
Qed.

Lemma shape_mismatch_behaviour_witness :
  (Np.broadcast_shapes (Np.shape (get_fdata Sample.lesion_2))
     (Np.shape (get_fdata Sample.atlas_3)) = None ->
   Sample.tailrach_labels ≠ [] ->
   compute_stats_atlas Sample.env "lesion_2.nii.gz" "atlas_3.nii.gz" "tailrach"
   = inl (ValueError "operands could not be broadcast together"))
  /\ (forall s,
        Np.broadcast_shapes (Np.shape (get_fdata Sample.lesion_2))
          (Np.shape (get_fdata Sample.atlas_3)) = Some s ->
        exists records,
          compute_stats_atlas Sample.env "lesion_2.nii.gz" "atlas_3.nii.gz"
            "tailrach" = inr records
          /\ length records = length Sample.tailrach_labels)
  /\ (Sample.tailrach_labels = [] ->
      compute_stats_atlas Sample.env "lesion_2.nii.gz" "atlas_3.nii.gz"
        "tailrach" = inr []).
Proof.
  apply (shape_mismatch_behaviour Sample.env "lesion_2.nii.gz" "atlas_3.nii.gz"
           "tailrach" Sample.lesion_2 Sample.atlas_3 eq_refl eq_refl
           Sample.tailrach_labels Sample.tailrach_names).
  reflexivity.
Defined.

(** C6, counterexample.  The selector [smatt] is not recognized and the
    lesion image is missing: the exception raised is that of the missing
    file, not that of the selector. *)
Lemma selector_checked_after_images :
  "smatt" ≠ "neudorfer" /\ "smatt" ≠ "tailrach" /\ "smatt" ≠ "brainstem"
  /\ compute_stats_atlas Sample.env "missing.nii.gz" "atlas.nii.gz" "smatt"
     = inl (FileNotFoundError "missing.nii.gz")
  /\ compute_stats_atlas Sample.env "missing.nii.gz" "atlas.nii.gz" "smatt"
     ≠ inl (Exception "Something went wrong!").
Proof. repeat split; discriminate. Qed.

Lemma unsupported_selector_outcome_witness :
  compute_stats_atlas Sample.env "lesion_2.nii.gz" "atlas_3.nii.gz" "smatt"
  = inl (Exception "Something went wrong!").
Proof.
  apply (unsupported_selector_outcome Sample.env "lesion_2.nii.gz"
           "atlas_3.nii.gz" "smatt"); discriminate.
Defined.

(** C7, counterexample.  The lesion image has four spacing components, the
    last of which is 0, and no error is raised: the run returns its
    records, with volumes computed from the product 0 of the four
    components. *)
Lemma invalid_geometry_not_raised :
  get_zooms Sample.lesion_4d = [1; 1; 1; 0]%Q
  /\ exists records,
       compute_stats_atlas Sample.env "lesion_4d.nii.gz" "atlas_4d.nii.gz"
         "tailrach" = inr records
       /\ map n_label_voxels records = [0; 1; 0]%nat
       /\ map label_volume records = [0; 0; 0]%Q.
Proof.
  split; [reflexivity|].
  eexists. split; [vm_compute; reflexivity|].
  split; reflexivity.
Qed.

Lemma voxel_volume_any_spacing_witness :
  exists records,
    compute_stats_atlas Sample.env "lesion_4d.nii.gz" "atlas_4d.nii.gz"
      "tailrach" = inr records /\
    (forall r, r ∈ records ->
       label_volume r
         = (Q_of_count (n_label_voxels r)
            * Np.prod (get_zooms Sample.lesion_4d))%Q
       /\ lesion_volume r
         = (Q_of_count (n_lesion_voxels r)
            * Np.prod (get_zooms Sample.lesion_4d))%Q)
    /\ (forall a b c : Q,
          get_zooms Sample.lesion_4d = [a; b; c] ->
          (Np.prod (get_zooms Sample.lesion_4d) == a * b * c)%Q).
Proof.
  apply (voxel_volume_any_spacing Sample.env "lesion_4d.nii.gz"
           "atlas_4d.nii.gz" "tailrach" Sample.lesion_4d Sample.atlas_4d
           Sample.tailrach_labels Sample.tailrach_names); reflexivity.
Defined.

Lemma brainstem_uniform_atlas_witness :
  exists records,
    compute_stats_atlas Sample.env "lesion.nii.gz" "atlas_five.nii.gz"
      "brainstem" = inr records
    /\ map n_label_voxels records = <[5%nat := 4%nat]> (replicate 24 0%nat).
Proof.
  destruct (brainstem_uniform_atlas Sample.env "lesion.nii.gz"
              "atlas_five.nii.gz" Sample.lesion Sample.atlas_five)
    as (_ & _ & records & Hrun & _ & Hcounts);
    try reflexivity.
  - repeat constructor.
  - exists records. split; [exact Hrun | exact Hcounts].
Defined.

(** C10, counterexample.  The one cell of the atlas stores the label 5,
    which is congruent to the region id 261 modulo 256, and the record of
    region 261 counts no voxel. *)
Lemma congruent_id_not_matched :
  length (filter (fun v => (Np.trunc v mod 256 = 261 mod 256)%Z)
            (Np.data (get_fdata Sample.atlas_1))) = 1%nat
  /\ exists records r,
       compute_stats_atlas Sample.env "lesion_1.nii.gz" "atlas_1.nii.gz"
         "tailrach" = inr records
       /\ Sample.tailrach_labels !! 2%nat = Some 261%Z
       /\ records !! 2%nat = Some r
       /\ atlas_label r = "Region B"
       /\ n_label_voxels r = 0%nat.
Proof.
  split; [reflexivity|].
  eexists _, _. split; [vm_compute; reflexivity|].
  repeat split; reflexivity.
Qed.

Lemma uint8_conversion_matching_witness :
  exists records,
    compute_stats_atlas Sample.env "lesion.nii.gz" "atlas.nii.gz" "tailrach"
    = inr records /\
    forall (i : nat) (region_id : Z),
      Sample.tailrach_labels !! i = Some region_id ->
      exists r,
        records !! i = Some r /\
        n_label_voxels r
          = length (filter (fun v => Np.to_uint8 v = region_id)
                      (Np.data (get_fdata Sample.atlas))) /\
        n_lesion_voxels r
          = length (filter (fun c => Np.to_uint8 c.1 ≠ 0%Z
                                     ∧ Np.to_uint8 c.2 = region_id)
                      (zip (Np.data (get_fdata Sample.lesion))
                           (Np.data (get_fdata Sample.atlas)))) /\
        ((0 < region_id < 256)%Z ->
           n_label_voxels r
             = length (filter
                         (fun v =>
                            (-2147483648 <= Np.trunc v < 2147483648)%Z
                            ∧ (Np.trunc v mod 256 = region_id mod 256)%Z)
                         (Np.data (get_fdata Sample.atlas)))) /\
        ((region_id < 0 \/ 256 <= region_id)%Z ->
           n_label_voxels r = 0%nat /\ n_lesion_voxels r = 0%nat).
Proof.
  apply (uint8_conversion_matching Sample.env "lesion.nii.gz" "atlas.nii.gz"
           "tailrach" Sample.lesion Sample.atlas Sample.tailrach_labels
           Sample.tailrach_names); reflexivity.
Defined.

(** * Further properties of the code *)

(** ** Tabular catalogs *)

Section TabularCatalogs.

Lemma foldl_insert_lookup {R} (key : R -> Z) (val : R -> string)
    (rows : list R) (m : gmap Z string) (k : Z) :
  foldl (fun names row => <[key row := val row]> names) m rows !! k
  = match last_row_with key k rows with
    | Some row => Some (val row)
    | None => m !! k
    end.
Proof.
  unfold last_row_with.
  induction rows as [|r rows IH] using rev_ind; [reflexivity|].
  rewrite foldl_app, filter_app. cbn [foldl].
  destruct (decide (key r = k)) as [Hk|Hk].
  - rewrite (filter_cons_True _ r []) by exact Hk. cbn [filter].
    rewrite filter_nil, last_snoc, Hk, lookup_insert_eq. reflexivity.
  - rewrite (filter_cons_False _ r []) by exact Hk.
    rewrite filter_nil, app_nil_r, lookup_insert_ne by exact Hk. exact IH.
Qed.

Lemma last_row_with_unique {R} (key : R -> Z) (rows : list R) (row : R) :
  NoDup (map key rows) -> row ∈ rows ->
  last_row_with key (key row) rows = Some row.
Proof.
  unfold last_row_with. induction rows as [|r rows IH]; intros Hnd Hin.
  - inversion Hin.
  - cbn [map] in Hnd. apply NoDup_cons in Hnd as [Hr Hnd].
    apply elem_of_cons in Hin as [->|Hin].
    + rewrite filter_cons_True by reflexivity.
      rewrite filter_none; [reflexivity|].
      apply Forall_forall. intros r' Hr' Heq. apply Hr.
      rewrite <- Heq. apply list_elem_of_fmap. eauto.
    + rewrite filter_cons_False.
      * apply IH; assumption.
      * intros Heq. apply Hr. rewrite Heq. apply list_elem_of_fmap. eauto.
Qed.

(** X1. [load_tailrach_atlas_labels] raises when the table cannot be read;
    otherwise the identifiers are those of the rows, in row order and with
    their repetitions, and the name bound to an identifier is the
    description of the last row that carries it. *)
Theorem load_tailrach_last_row_wins (env : environment) (csv_file : string) :
  match read_tailrach_csv env csv_file with
  | None =>
      load_tailrach_atlas_labels env csv_file
      = inl (FileNotFoundError csv_file)
  | Some df =>
      exists names,
        load_tailrach_atlas_labels env csv_file = inr (map Index df, names)
        /\ forall k : Z,
             names !! k = Description <$> last_row_with Index k df
  end.
Proof.
  unfold load_tailrach_atlas_labels, load.
  destruct (read_tailrach_csv env csv_file) as [df|]; [|reflexivity].
  eexists. split; [reflexivity|].
  intros k. rewrite foldl_insert_lookup.
  destruct (last_row_with Index k df); reflexivity.
Qed.

(** X2. [load_neudorfer_atlas_labels] raises when the table cannot be read;
    otherwise the identifiers are the labels of the rows in row order, and
    the name bound to a label is hemisphere, abbreviation and name of the
    last row that carries it, joined by underscores. *)
Theorem load_neudorfer_composes_names (env : environment) (csv_file : string) :
  match read_neudorfer_csv env csv_file with
  | None =>
      load_neudorfer_atlas_labels env csv_file
      = inl (FileNotFoundError csv_file)
  | Some df =>
      exists names,
        load_neudorfer_atlas_labels env csv_file = inr (map Label df, names)
        /\ forall k : Z,
             names !! k
             = (fun row =>
                  Hemisphere row ++ "_" ++ Abbreviation row ++ "_" ++ Name row)
               <$> last_row_with Label k df
  end.
Proof.
  unfold load_neudorfer_atlas_labels, load.
  destruct (read_neudorfer_csv env csv_file) as [df|]; [|reflexivity].
  eexists. split; [reflexivity|].
  intros k.
  rewrite (foldl_insert_lookup Label
             (fun row =>
                Hemisphere row ++ "_" ++ Abbreviation row ++ "_" ++ Name row)).
  destruct (last_row_with Label k df); reflexivity.
Qed.

End TabularCatalogs.

(** ** More on runs on valid inputs *)

Section TailrachRun.

Variable env : environment.
Variables lesion_mask_path warped_atlas_mask_path : string.
Variables lesion_mask warped_atlas_mask : nifti.
Variable df : list tailrach_row.

Hypothesis lesion_loaded : nib_load env lesion_mask_path = Some lesion_mask.
Hypothesis atlas_loaded :
  nib_load env warped_atlas_mask_path = Some warped_atlas_mask.
Hypothesis lesion_wf : Np.wf (get_fdata lesion_mask).
Hypothesis atlas_wf : Np.wf (get_fdata warped_atlas_mask).
Hypothesis same_shape :
  Np.shape (get_fdata lesion_mask) = Np.shape (get_fdata warped_atlas_mask).
Hypothesis table_read :
  read_tailrach_csv env "tailrach_atlas_labels.csv" = Some df.

(** X3. With the two-column table, the run returns one record per table
    row, in row order.  The record of a row is named by the description of
    the last row with the same identifier, so rows that repeat an
    identifier give records with one name and the same counts; when the
    identifiers are unique every record carries the description of its own
    row. *)
Theorem tailrach_records_follow_rows :
  exists records,
    compute_stats_atlas env lesion_mask_path warped_atlas_mask_path "tailrach"
    = inr records
    /\ map (fun r => Some (atlas_label r)) records
       = map (fun row => Description <$> last_row_with Index (Index row) df) df
    /\ map n_label_voxels records
       = map (fun row =>
                cells_with_label
                  (Np.astype_uint8 (get_fdata warped_atlas_mask)) (Index row))
             df
    /\ (NoDup (map Index df) -> map atlas_label records = map Description df).
Proof.
  pose (names := foldl (fun (names : gmap Z string) row =>
                          <[Index row := Description row]> names) ∅ df).
  assert (Hcat : load_atlas_labels env "tailrach" = inr (map Index df, names)).
  { unfold load_atlas_labels. cbn [String.eqb Ascii.eqb Bool.eqb].
    unfold load_tailrach_atlas_labels, load. rewrite table_read. reflexivity. }
  assert (Hname : forall row, row ∈ df ->
            Some (default "" (names !! Index row))
            = Description <$> last_row_with Index (Index row) df).
  { intros row Hin. unfold names. rewrite foldl_insert_lookup.
    pose proof (foldl_insert_total Index Description df ∅) as Htot.
    rewrite Forall_forall in Htot.
    destruct (Htot (Index row)) as [v Hv].
    { apply list_elem_of_fmap. eauto. }
    rewrite foldl_insert_lookup in Hv.
    destruct (last_row_with Index (Index row) df); [reflexivity|].
    rewrite lookup_empty in Hv. discriminate. }
  eexists. split.
  { apply (compute_stats_atlas_valid env lesion_mask_path
             warped_atlas_mask_path "tailrach" lesion_mask warped_atlas_mask
             (map Index df) names); assumption. }
  unfold records_of_catalog. rewrite !map_map.
  cbn [record_of_counts atlas_label n_label_voxels].
  split; [|split].
  - apply map_ext_in. intros row Hin. apply Hname, list_elem_of_In, Hin.
  - reflexivity.
  - intros Hnd. apply map_ext_in. intros row Hin.
    apply list_elem_of_In in Hin.
    pose proof (Hname row Hin) as H.
    rewrite (last_row_with_unique Index df row Hnd Hin) in H.
    injection H as H. exact H.
Qed.

End TailrachRun.

Section MoreCounting.

Lemma length_filter_ext_Forall {A} (P Q : A -> Prop)
    `{!forall x, Decision (P x)} `{!forall x, Decision (Q x)} (l : list A) :
  Forall (fun x => P x <-> Q x) l ->
  length (filter P l) = length (filter Q l).
Proof.
  induction 1 as [|x l Hx _ IH]; [reflexivity|].
  rewrite !filter_cons.
  destruct (decide (P x)) as [HP|HP], (decide (Q x)) as [HQ|HQ];
    cbn [length]; try lia; tauto.
Qed.

Lemma length_filter_le {A} (P : A -> Prop) `{!forall x, Decision (P x)}
    (l : list A) :
  (length (filter P l) <= length l)%nat.
Proof.
  induction l as [|x l IH]; [reflexivity|].
  rewrite filter_cons. destruct (decide (P x)); cbn [length]; lia.
Qed.

Lemma sum_cells_with_label (labels : Np.ndarray Z) (ids : list Z) :
  NoDup ids ->
  sum_list (map (cells_with_label labels) ids)
  = length (filter (fun a => a ∈ ids) (Np.data labels)).
Proof.
  unfold cells_with_label.
  induction 1 as [|k ids Hk _ IH]; cbn [map sum_list].
  - rewrite filter_none; [reflexivity|].
    apply Forall_forall. intros a _ Ha. inversion Ha.
  - rewrite IH. apply length_filter_split.
    + intros a -> Hin. exact (Hk Hin).
    + intros a. rewrite elem_of_cons. tauto.
Qed.

(** When every cell of the region carries a lesion, the two counts agree. *)
Lemma lesion_cells_full (lesion labels : Np.ndarray Z) (k : Z) :
  length (Np.data lesion) = length (Np.data labels) ->
  Forall (fun c => c.2 = k -> c.1 ≠ 0%Z)
         (zip (Np.data lesion) (Np.data labels)) ->
  lesion_cells_with_label lesion labels k = cells_with_label labels k.
Proof.
  unfold lesion_cells_with_label, cells_with_label.
  generalize (Np.data labels) as la.
  induction (Np.data lesion) as [|x ld IH]; intros la Hlen Hall.
  - destruct la; [reflexivity | discriminate].
  - destruct la as [|y la]; [discriminate|].
    cbn [zip_with] in *. apply Forall_cons in Hall as [Hxy Hall].
    cbn [fst snd] in Hxy. injection Hlen as Hlen.
    rewrite !filter_cons. cbn [fst snd]. specialize (IH la Hlen Hall).
    destruct (decide (y = k)) as [Hy|Hy].
    + rewrite decide_True by (split; [apply Hxy, Hy | exact Hy]).
      cbn [length]. rewrite IH. reflexivity.
    + rewrite decide_False by (intros [_ H]; exact (Hy H)). exact IH.
Qed.

(** When no cell of the region carries a lesion, the lesion count is 0. *)
Lemma lesion_cells_disjoint (lesion labels : Np.ndarray Z) (k : Z) :
  Forall (fun c => c.2 = k -> c.1 = 0%Z)
         (zip (Np.data lesion) (Np.data labels)) ->
  lesion_cells_with_label lesion labels k = 0%nat.
Proof.
  intros Hall. unfold lesion_cells_with_label.
  rewrite filter_none; [reflexivity|].
  eapply Forall_impl; [exact Hall|].
  intros c Hc [Hnz Hk]. exact (Hnz (Hc Hk)).
Qed.

End MoreCounting.

Section MoreConversion.

Lemma trunc_inject_Z (v : Q) (z : Z) : (v == inject_Z z)%Q -> Np.trunc v = z.
Proof.
  unfold Qeq, Np.trunc. cbn. rewrite Z.mul_1_r. intros ->.
  apply Z.quot_mul. lia.
Qed.

Lemma to_uint8_stored (v : Q) (z : Z) :
  (0 <= z < 256)%Z -> (v == inject_Z z)%Q -> Np.to_uint8 v = z.
Proof.
  intros Hz Hv. unfold Np.to_uint8. rewrite (trunc_inject_Z v z Hv).
  cbn zeta.
  destruct (Z.leb_spec (-2147483648) z); [|lia].
  destruct (Z.ltb_spec z 2147483648); [|lia].
  apply Z.mod_small. exact Hz.
Qed.

Lemma inject_Z_eq (a b : Z) : (inject_Z a == inject_Z b)%Q <-> a = b.
Proof. unfold Qeq. cbn. lia. Qed.

Lemma trunc_fraction (v : Q) : (-1 < v)%Q -> (v < 1)%Q -> Np.trunc v = 0%Z.
Proof.
  unfold Qlt, Np.trunc. destruct v as [n d]. cbn. intros Hlo Hhi.
  destruct (Z.le_gt_cases 0 n) as [Hn|Hn].
  - apply Z.quot_small. lia.
  - replace n with (- (- n))%Z by lia.
    rewrite Z.quot_opp_l by lia. rewrite Z.quot_small by lia. reflexivity.
Qed.

End MoreConversion.

Section MoreValidRun.

Variable env : environment.
Variables lesion_mask_path warped_atlas_mask_path atlas_type : string.
Variables lesion_mask warped_atlas_mask : nifti.
Variable atlas_labels : list Z.
Variable atlas_labels_names : gmap Z string.

Hypothesis lesion_loaded : nib_load env lesion_mask_path = Some lesion_mask.
Hypothesis atlas_loaded :
  nib_load env warped_atlas_mask_path = Some warped_atlas_mask.
Hypothesis lesion_wf : Np.wf (get_fdata lesion_mask).
Hypothesis atlas_wf : Np.wf (get_fdata warped_atlas_mask).
Hypothesis same_shape :
  Np.shape (get_fdata lesion_mask) = Np.shape (get_fdata warped_atlas_mask).
Hypothesis catalog_loaded :
  load_atlas_labels env atlas_type = inr (atlas_labels, atlas_labels_names).

Local Abbreviation lesion_mask_data := (Np.astype_uint8 (get_fdata lesion_mask)).
Local Abbreviation warped_atlas_mask_data :=
  (Np.astype_uint8 (get_fdata warped_atlas_mask)).

Lemma valid_run :
  compute_stats_atlas env lesion_mask_path warped_atlas_mask_path atlas_type
  = inr (records_of_catalog lesion_mask_data warped_atlas_mask_data
           (Np.prod (get_zooms lesion_mask)) atlas_labels atlas_labels_names).
Proof.
  apply (compute_stats_atlas_valid env lesion_mask_path warped_atlas_mask_path
           atlas_type lesion_mask warped_atlas_mask atlas_labels
           atlas_labels_names); assumption.
Qed.

Lemma valid_run_elem (r : region_stat) :
  r ∈ records_of_catalog lesion_mask_data warped_atlas_mask_data
        (Np.prod (get_zooms lesion_mask)) atlas_labels atlas_labels_names ->
  exists region_id,
    r = record_of_counts (default "" (atlas_labels_names !! region_id))
          (cells_with_label warped_atlas_mask_data region_id)
          (lesion_cells_with_label lesion_mask_data warped_atlas_mask_data
             region_id)
          (Np.prod (get_zooms lesion_mask)).
Proof.
  unfold records_of_catalog. intros H.
  apply list_elem_of_fmap in H as (region_id & -> & _). eauto.
Qed.

Lemma cast_lengths :
  length (Np.data lesion_mask_data) = length (Np.data warped_atlas_mask_data).
Proof.
  cbn [Np.astype_uint8 Np.data]. rewrite !length_map.
  unfold Np.wf in lesion_wf, atlas_wf. rewrite lesion_wf, atlas_wf, same_shape.
  reflexivity.
Qed.

(** X4. In every record of a valid run the lesion voxel count is at most
    the region voxel count, which is at most the number of grid cells. *)
Theorem lesion_within_region :
  exists records,
    compute_stats_atlas env lesion_mask_path warped_atlas_mask_path atlas_type
    = inr records
    /\ forall r, r ∈ records ->
         (n_lesion_voxels r <= n_label_voxels r)%nat
         /\ (n_label_voxels r
             <= Np.size_of (Np.shape (get_fdata warped_atlas_mask)))%nat.
Proof.
  eexists. split; [exact valid_run|].
  intros r Hr. apply valid_run_elem in Hr as (region_id & ->).
  cbn [record_of_counts n_lesion_voxels n_label_voxels].
  split; [apply lesion_cells_le|].
  unfold cells_with_label. rewrite <- atlas_wf.
  etransitivity; [apply length_filter_le|].
  cbn [Np.astype_uint8 Np.data]. rewrite length_map. reflexivity.
Qed.

(** X5. A region without a voxel in the converted atlas volume gives a
    record with no lesion voxel and a percentage that is exactly 0. *)
Theorem absent_region_is_zero :
  exists records,
    compute_stats_atlas env lesion_mask_path warped_atlas_mask_path atlas_type
    = inr records
    /\ forall r, r ∈ records ->
         n_label_voxels r = 0%nat ->
         n_lesion_voxels r = 0%nat
         /\ lesion_volume_percent r = 0%Q.
Proof.
  eexists. split; [exact valid_run|].
  intros r Hr. apply valid_run_elem in Hr as (region_id & ->).
  cbn [record_of_counts n_lesion_voxels n_label_voxels lesion_volume
       label_volume lesion_volume_percent].
  intros Hzero.
  pose proof (lesion_cells_le lesion_mask_data warped_atlas_mask_data
                region_id) as Hle.
  rewrite Hzero in *.
  assert (Hl : lesion_cells_with_label lesion_mask_data warped_atlas_mask_data
                 region_id = 0%nat) by lia.
  rewrite Hl.
  assert (Hz : (Q_of_count 0 * Np.prod (get_zooms lesion_mask) == 0)%Q).
  { unfold Q_of_count. cbn [Z.of_nat]. ring. }
  split; [reflexivity|].
  destruct (Qlt_le_dec _ _) as [Hpos|_]; [|reflexivity].
  rewrite Hz in Hpos. exfalso. exact (Qlt_irrefl _ Hpos).
Qed.

(** X6. When the product of the spacing components of the lesion image is
    zero or negative, every percentage of the run is exactly 0, whatever
    the overlap. *)
Theorem nonpositive_voxel_volume :
  (Np.prod (get_zooms lesion_mask) <= 0)%Q ->
  exists records,
    compute_stats_atlas env lesion_mask_path warped_atlas_mask_path atlas_type
    = inr records
    /\ forall r, r ∈ records -> lesion_volume_percent r = 0%Q.
Proof.
  intros Hvv. eexists. split; [exact valid_run|].
  intros r Hr. apply valid_run_elem in Hr as (region_id & ->).
  cbn [record_of_counts lesion_volume_percent].
  destruct (Qlt_le_dec _ _) as [Hpos|_]; [|reflexivity].
  exfalso.
  pose proof (Q_of_count_nonneg
                (cells_with_label warped_atlas_mask_data region_id)) as Hc.
  nra.
Qed.

(** X8. For a catalog entry whose region is covered by the lesion (every
    grid cell with that converted label has a nonzero converted lesion
    value) the two voxel counts agree; for an entry whose region the lesion
    does not touch, the lesion voxel count is 0. *)
Theorem covered_and_untouched_regions :
  exists records,
    compute_stats_atlas env lesion_mask_path warped_atlas_mask_path atlas_type
    = inr records
    /\ forall (i : nat) (region_id : Z),
         atlas_labels !! i = Some region_id ->
         exists r,
           records !! i = Some r
           /\ (Forall (fun c => c.2 = region_id -> c.1 ≠ 0%Z)
                 (zip (Np.data (Np.astype_uint8 (get_fdata lesion_mask)))
                      (Np.data (Np.astype_uint8 (get_fdata warped_atlas_mask)))) ->
               n_lesion_voxels r = n_label_voxels r)
           /\ (Forall (fun c => c.2 = region_id -> c.1 = 0%Z)
                 (zip (Np.data (Np.astype_uint8 (get_fdata lesion_mask)))
                      (Np.data (Np.astype_uint8 (get_fdata warped_atlas_mask)))) ->
               n_lesion_voxels r = 0%nat).
Proof.
  eexists. split; [exact valid_run|].
  intros i region_id Hi. eexists. split.
  { unfold records_of_catalog. rewrite list_lookup_fmap, Hi. reflexivity. }
  cbn [record_of_counts n_lesion_voxels n_label_voxels].
  split.
  - intros Hcov. apply (lesion_cells_full _ _ _ cast_lengths Hcov).
  - intros Hdis. apply (lesion_cells_disjoint _ _ _ Hdis).
Qed.

(** X9. With unique region ids, the region voxel counts of the records add
    up to the number of grid cells whose label is in the catalog, hence to
    at most the number of grid cells, and to exactly that number when every
    label of the atlas volume is in the catalog. *)
Theorem region_counts_partition_grid :
  NoDup atlas_labels ->
  exists records,
    compute_stats_atlas env lesion_mask_path warped_atlas_mask_path atlas_type
    = inr records
    /\ sum_list (map n_label_voxels records)
       = length (filter (fun a => a ∈ atlas_labels)
                   (Np.data warped_atlas_mask_data))
    /\ (sum_list (map n_label_voxels records)
        <= Np.size_of (Np.shape (get_fdata warped_atlas_mask)))%nat
    /\ (Forall (fun a => a ∈ atlas_labels) (Np.data warped_atlas_mask_data) ->
        sum_list (map n_label_voxels records)
        = Np.size_of (Np.shape (get_fdata warped_atlas_mask))).
Proof.
  intros Hnd. eexists. split; [exact valid_run|].
  assert (Hsum : sum_list (map n_label_voxels
                    (records_of_catalog lesion_mask_data warped_atlas_mask_data
                       (Np.prod (get_zooms lesion_mask)) atlas_labels
                       atlas_labels_names))
                 = length (filter (fun a => a ∈ atlas_labels)
                             (Np.data warped_atlas_mask_data))).
  { unfold records_of_catalog. rewrite map_map.
    cbn [record_of_counts n_label_voxels].
    apply sum_cells_with_label, Hnd. }
  assert (Hlen : length (Np.data warped_atlas_mask_data)
                 = Np.size_of (Np.shape (get_fdata warped_atlas_mask))).
  { cbn [Np.astype_uint8 Np.data]. rewrite length_map. exact atlas_wf. }
  rewrite Hsum. split; [reflexivity|]. split.
  - rewrite <- Hlen. apply length_filter_le.
  - intros Hall. rewrite filter_all by exact Hall. exact Hlen.
Qed.

(** X10. When both images store integers between 0 and 255, the
    conversion to 8-bit integers changes nothing: the region voxel count is
    the number of grid cells whose stored atlas value equals the region id,
    and the lesion voxel count the number of those whose stored lesion
    value is not 0. *)
Theorem counts_on_stored_values :
  stores_uint8 (get_fdata lesion_mask) ->
  stores_uint8 (get_fdata warped_atlas_mask) ->
  exists records,
    compute_stats_atlas env lesion_mask_path warped_atlas_mask_path atlas_type
    = inr records
    /\ forall (i : nat) (region_id : Z),
         atlas_labels !! i = Some region_id ->
         exists r,
           records !! i = Some r
           /\ n_label_voxels r
              = length (filter (fun v => (v == inject_Z region_id)%Q)
                          (Np.data (get_fdata warped_atlas_mask)))
           /\ n_lesion_voxels r
              = length (filter (fun c => ~ (c.1 == 0)%Q
                                         /\ (c.2 == inject_Z region_id)%Q)
                          (zip (Np.data (get_fdata lesion_mask))
                               (Np.data (get_fdata warped_atlas_mask)))).
Proof.
  intros Hl Ha. eexists. split; [exact valid_run|].
  intros i region_id Hi. eexists. split.
  { unfold records_of_catalog. rewrite list_lookup_fmap, Hi. reflexivity. }
  cbn [record_of_counts n_lesion_voxels n_label_voxels].
  rewrite cells_with_label_stored, lesion_cells_with_label_stored.
  assert (Hmatch : forall v, (exists z : Z, (0 <= z < 256)%Z
                                            /\ (v == inject_Z z)%Q) ->
            Np.to_uint8 v = region_id <-> (v == inject_Z region_id)%Q).
  { intros v (z & Hz & Hv). rewrite (to_uint8_stored v z Hz Hv). split.
    - intros <-. exact Hv.
    - intros Hid. apply inject_Z_eq. rewrite <- Hv. exact Hid. }
  assert (Hzero : forall v, (exists z : Z, (0 <= z < 256)%Z
                                           /\ (v == inject_Z z)%Q) ->
            Np.to_uint8 v ≠ 0%Z <-> ~ (v == 0)%Q).
  { intros v (z & Hz & Hv). rewrite (to_uint8_stored v z Hz Hv).
    change 0%Q with (inject_Z 0). rewrite Hv, inject_Z_eq. reflexivity. }
  split.
  - apply length_filter_ext_Forall.
    eapply Forall_impl; [exact Ha|]. intros v Hv. apply Hmatch, Hv.
  - apply length_filter_ext_Forall.
    unfold stores_uint8 in Hl, Ha.
    revert Hl Ha.
    generalize (Np.data (get_fdata warped_atlas_mask)) as la.
    induction (Np.data (get_fdata lesion_mask)) as [|x ld IH];
      intros la Hl Ha; [constructor|].
    destruct la as [|y la]; [constructor|].
    apply Forall_cons in Hl as [Hx Hl]. apply Forall_cons in Ha as [Hy Ha].
    cbn [zip_with]. constructor; [|apply IH; assumption].
    cbn [fst snd]. rewrite (Hzero x Hx), (Hmatch y Hy). reflexivity.
Qed.

(** X11. A lesion image whose values all lie strictly between -1 and 1
    (an interpolated mask, for instance) is all zeros after the conversion
    to 8-bit integers: every record has a lesion voxel count of 0. *)
Theorem fractional_lesion_is_dropped :
  stores_fractions (get_fdata lesion_mask) ->
  exists records,
    compute_stats_atlas env lesion_mask_path warped_atlas_mask_path atlas_type
    = inr records
    /\ forall r, r ∈ records -> n_lesion_voxels r = 0%nat.
Proof.
  intros Hfr. eexists. split; [exact valid_run|].
  intros r Hr. apply valid_run_elem in Hr as (region_id & ->).
  cbn [record_of_counts n_lesion_voxels].
  { rewrite lesion_cells_with_label_stored.
    rewrite filter_none; [reflexivity|].
    unfold stores_fractions in Hfr. revert Hfr.
    generalize (Np.data (get_fdata warped_atlas_mask)) as la.
    induction (Np.data (get_fdata lesion_mask)) as [|x ld IH];
      intros la Hfr; [constructor|].
    destruct la as [|y la]; [constructor|].
    apply Forall_cons in Hfr as [[Hlo Hhi] Hfr].
    cbn [zip_with]. constructor; [|apply IH; exact Hfr].
    cbn [fst snd]. intros [Hnz _]. apply Hnz.
    unfold Np.to_uint8. rewrite (trunc_fraction x Hlo Hhi). reflexivity. }
Qed.

End MoreValidRun.

(** ** Outcomes of a run, whatever the inputs *)

Section Outcomes.

Lemma mapM_result_inr {A B} (f : A -> result B) (l : list A) (ys : list B) :
  mapM f l = inr ys -> Forall2 (fun x y => f x = inr y) l ys.
Proof.
  revert ys. induction l as [|x l IH]; intros ys.
  - intros [= <-]. constructor.
  - cbn. destruct (f x) as [e|y] eqn:Hx; cbn; [discriminate|].
    destruct (mapM f l) as [e|ys']; cbn; [discriminate|].
    intros [= <-]. constructor; [exact Hx | apply IH; reflexivity].
Qed.

Lemma region_stats_success (lesion labels : Np.ndarray Z) (voxel_dims : list Q)
    (region_id : Z) (region_name : string) (r : region_stat) :
  region_stats lesion labels voxel_dims region_id region_name = inr r ->
  atlas_label r = region_name
  /\ n_label_voxels r = cells_with_label labels region_id.
Proof.
  unfold region_stats.
  destruct (Np.multiply _ _) as [e|m]; cbn [mbind result_bind]; [discriminate|].
  intros [= <-]. cbn [atlas_label n_label_voxels]. split; [reflexivity|].
  unfold Np.count_nonzero. rewrite current_atlas_mask_data.
  apply count_indicator.
Qed.

Lemma stats_loop_success (lesion labels : Np.ndarray Z) (voxel_dims : list Q)
    (ids : list Z) (names : gmap Z string) (records : list region_stat) :
  Forall (fun k => is_Some (names !! k)) ids ->
  stats_loop lesion labels voxel_dims ids names = inr records ->
  Forall2 (fun region_id r =>
             names !! region_id = Some (atlas_label r)
             /\ n_label_voxels r = cells_with_label labels region_id)
          ids records.
Proof.
  intros Htot. unfold stats_loop.
  rewrite (getitem_names _ _ Htot). cbn [mbind result_bind].
  rewrite zip_map_self. intros Hrun. apply mapM_result_inr in Hrun.
  revert records Hrun. induction Htot as [|k ids [v Hk] _ IH]; intros records Hrun.
  - inversion Hrun. constructor.
  - cbn [map] in Hrun. inversion Hrun as [|p r ps rs Hr Hrest]; subst.
    constructor; [|apply IH; exact Hrest].
    apply region_stats_success in Hr as [Hname Hcount].
    rewrite Hk in Hname. cbn in Hname. rewrite Hk, Hname. auto.
Qed.

(** X12. Whenever the computation returns, even on grids of different
    shapes that broadcast, it returns one record per catalog entry in
    catalog order; each record has the name bound to its entry and a region
    voxel count equal to the number of cells of the converted atlas with
    that label, which does not depend on the lesion image. *)
Theorem returned_records_follow_catalog (env : environment)
    (lesion_mask_path warped_atlas_mask_path atlas_type : string)
    (warped_atlas_mask : nifti) (atlas_labels : list Z)
    (atlas_labels_names : gmap Z string) (records : list region_stat) :
  compute_stats_atlas env lesion_mask_path warped_atlas_mask_path atlas_type
  = inr records ->
  nib_load env warped_atlas_mask_path = Some warped_atlas_mask ->
  load_atlas_labels env atlas_type = inr (atlas_labels, atlas_labels_names) ->
  Forall2 (fun region_id r =>
             atlas_labels_names !! region_id = Some (atlas_label r)
             /\ n_label_voxels r
                = cells_with_label
                    (Np.astype_uint8 (get_fdata warped_atlas_mask)) region_id)
          atlas_labels records.
Proof.
  unfold compute_stats_atlas, load. intros Hrun Hatlas Hcat.
  destruct (nib_load env lesion_mask_path) as [lesion_mask|];
    cbn [mbind result_bind mret result_ret] in Hrun; [|discriminate].
  rewrite Hatlas in Hrun. cbn [mbind result_bind mret result_ret] in Hrun.
  rewrite Hcat in Hrun. cbn [mbind result_bind] in Hrun.
  eapply stats_loop_success; [|exact Hrun].
  eapply load_atlas_labels_total, Hcat.
Qed.

End Outcomes.

(** ** More on the name normalizer *)

Section MoreNameNormalizer.

Local Abbreviation chars := String.list_ascii_of_string.

Lemma remove_char_id (a : ascii) (s : string) :
  ~ In a (chars s) -> remove_char a s = s.
Proof.
  induction s as [|x s IH]; [reflexivity|].
  cbn. intros Hn. destruct (Ascii.eqb_spec x a) as [->|_].
  - exfalso. apply Hn. left. reflexivity.
  - f_equal. apply IH. intros H. apply Hn. right. exact H.
Qed.

Lemma remove_pair_id_first (a b : ascii) (s : string) :
  ~ In a (chars s) -> remove_pair a b s = s.
Proof.
  induction s as [|x s IH]; [reflexivity|].
  intros Hn. destruct s as [|y rest]; [reflexivity|].
  rewrite remove_pair_scan.
  destruct (Ascii.eqb_spec x a) as [->|_].
  - exfalso. apply Hn. left. reflexivity.
  - cbn [andb]. f_equal. apply IH. intros H. apply Hn. right. exact H.
Qed.

Lemma remove_pair_id_second (a b : ascii) (s : string) :
  ~ In b (chars s) -> remove_pair a b s = s.
Proof.
  induction s as [|x s IH]; [reflexivity|].
  intros Hn. destruct s as [|y rest]; [reflexivity|].
  rewrite remove_pair_scan.
  destruct (Ascii.eqb_spec y b) as [->|_].
  - exfalso. apply Hn. right. left. reflexivity.
  - rewrite andb_false_r. f_equal. apply IH. intros H. apply Hn. right. exact H.
Qed.

Lemma lstrip_clean_start (s : string) : clean_start (PyStr.lstrip s).
Proof.
  induction s as [|c s IH]; [exact I|].
  cbn [PyStr.lstrip]. destruct (PyStr.isspace c) eqn:Hc; [exact IH | exact Hc].
Qed.

Lemma lstrip_id (s : string) : clean_start s -> PyStr.lstrip s = s.
Proof. destruct s as [|c s]; [reflexivity|]. cbn. intros ->. reflexivity. Qed.

Lemma rstrip_clean_start (s : string) :
  clean_start s -> clean_start (PyStr.rstrip s).
Proof.
  destruct s as [|c s]; [exact id|]. cbn [clean_start PyStr.rstrip].
  intros Hc. destruct (PyStr.rstrip s); [rewrite Hc|]; exact Hc.
Qed.

Lemma rstrip_idempotent (s : string) :
  PyStr.rstrip (PyStr.rstrip s) = PyStr.rstrip s.
Proof.
  induction s as [|c s IH]; [reflexivity|].
  cbn [PyStr.rstrip]. destruct (PyStr.rstrip s) as [|y r] eqn:Hr.
  - destruct (PyStr.isspace c) eqn:Hc; [reflexivity|].
    cbn [PyStr.rstrip]. rewrite Hc. reflexivity.
  - change (PyStr.rstrip (String c (String y r)))
      with (match PyStr.rstrip (String y r) with
            | EmptyString =>
                if PyStr.isspace c then EmptyString else String c EmptyString
            | r' => String c r'
            end).
    rewrite IH. reflexivity.
Qed.

Lemma strip_idempotent (s : string) :
  PyStr.strip (PyStr.strip s) = PyStr.strip s.
Proof.
  unfold PyStr.strip.
  rewrite (lstrip_id (PyStr.rstrip (PyStr.lstrip s))).
  - apply rstrip_idempotent.
  - apply rstrip_clean_start, lstrip_clean_start.
Qed.

Lemma clean_label_no_asterisk (raw : string) :
  ~ In "*"%char (chars (clean_label raw)).
Proof.
  unfold clean_label. destruct (String.eqb _ _).
  - cbn. intros H. repeat (destruct H as [H|H]; [discriminate H|]). exact H.
  - rewrite replace_char_remove. intros H.
    eapply remove_char_absent, strip_incl, H.
Qed.

Lemma clean_label_without_asterisk (raw : string) :
  ~ In "*"%char (chars raw) -> clean_label raw = PyStr.strip raw.
Proof.
  intros Hn. unfold clean_label.
  destruct (String.eqb_spec (PyStr.strip raw) "*.*.*.*.") as [Heq|_].
  - exfalso. apply Hn. apply strip_incl. rewrite Heq. left. reflexivity.
  - rewrite replace_char_remove, !replace_pair_remove.
    rewrite (remove_pair_id_first "*" "." raw Hn).
    rewrite (remove_pair_id_second "." "*" raw Hn).
    rewrite (remove_char_id "*" raw Hn). reflexivity.
Qed.

Lemma clean_label_stripped (raw : string) :
  PyStr.strip (clean_label raw) = clean_label raw.
Proof.
  unfold clean_label. destruct (String.eqb _ _); [reflexivity|].
  apply strip_idempotent.
Qed.

End MoreNameNormalizer.

(** X14. A name without any asterisk is only trimmed by [clean_label]:
    the descriptions of the tabular catalogs would pass through it
    unchanged but for their surrounding whitespace. *)
Theorem clean_label_only_trims (raw : string) :
  ~ In "*"%char (String.list_ascii_of_string raw) ->
  clean_label raw = PyStr.strip raw.
Proof. apply clean_label_without_asterisk. Qed.

(** X15. [clean_label] is idempotent, and its result has no surrounding
    whitespace: cleaning a cleaned name, or trimming it, changes nothing. *)
Theorem clean_label_idempotent (raw : string) :
  clean_label (clean_label raw) = clean_label raw
  /\ PyStr.strip (clean_label raw) = clean_label raw.
Proof.
  split; [|apply clean_label_stripped].
  rewrite (clean_label_without_asterisk (clean_label raw)).
  - apply clean_label_stripped.
  - apply clean_label_no_asterisk.
Qed.

Lemma clean_label_only_trims_witness :
  clean_label "  Left Cerebellum " = PyStr.strip "  Left Cerebellum ".
Proof.
  apply (clean_label_only_trims "  Left Cerebellum ").
  cbn. intros H. repeat (destruct H as [H|H]; [discriminate H|]). exact H.
Defined.

(** ** Further runs on the sample inputs *)

Lemma tailrach_records_follow_rows_witness :
  exists records,
    compute_stats_atlas SampleMore.env "lesion.nii.gz" "atlas.nii.gz" "tailrach"
    = inr records
    /\ map (fun r => Some (atlas_label r)) records
       = [Some "Second"; Some "Other"; Some "Second"].
Proof.
  destruct (tailrach_records_follow_rows SampleMore.env "lesion.nii.gz"
              "atlas.nii.gz" Sample.lesion Sample.atlas
              SampleMore.tailrach_duplicates)
    as (records & Hrun & Hnames & _); try reflexivity.
  exists records. split; [exact Hrun | exact Hnames].
Defined.

Lemma lesion_within_region_witness :
  exists records,
    compute_stats_atlas Sample.env "lesion.nii.gz" "atlas.nii.gz" "tailrach"
    = inr records
    /\ forall r, r ∈ records ->
         (n_lesion_voxels r <= n_label_voxels r)%nat
         /\ (n_label_voxels r
             <= Np.size_of (Np.shape (get_fdata Sample.atlas)))%nat.
Proof.
  apply (lesion_within_region Sample.env "lesion.nii.gz" "atlas.nii.gz"
           "tailrach" Sample.lesion Sample.atlas Sample.tailrach_labels
           Sample.tailrach_names); reflexivity.
Defined.

Lemma absent_region_is_zero_witness :
  exists records,
    compute_stats_atlas Sample.env "lesion.nii.gz" "atlas.nii.gz" "tailrach"
    = inr records
    /\ forall r, r ∈ records ->
         n_label_voxels r = 0%nat ->
         n_lesion_voxels r = 0%nat
         /\ lesion_volume_percent r = 0%Q.
Proof.
  apply (absent_region_is_zero Sample.env "lesion.nii.gz" "atlas.nii.gz"
           "tailrach" Sample.lesion Sample.atlas Sample.tailrach_labels
           Sample.tailrach_names); reflexivity.
Defined.

Lemma nonpositive_voxel_volume_witness :
  exists records,
    compute_stats_atlas Sample.env "lesion_4d.nii.gz" "atlas_4d.nii.gz"
      "tailrach" = inr records
    /\ forall r, r ∈ records -> lesion_volume_percent r = 0%Q.
Proof.
  apply (nonpositive_voxel_volume Sample.env "lesion_4d.nii.gz"
           "atlas_4d.nii.gz" "tailrach" Sample.lesion_4d Sample.atlas_4d
           Sample.tailrach_labels Sample.tailrach_names); try reflexivity.
  vm_compute. discriminate.
Defined.

Lemma region_counts_partition_grid_witness :
  exists records,
    compute_stats_atlas SampleMore.env "lesion.nii.gz" "atlas_small.nii.gz"
      "brainstem" = inr records
    /\ sum_list (map n_label_voxels records) = 4%nat.
Proof.
  destruct (region_counts_partition_grid SampleMore.env "lesion.nii.gz"
              "atlas_small.nii.gz" "brainstem" Sample.lesion
              SampleMore.atlas_small load_brainstem_labels.1
              load_brainstem_labels.2)
    as (records & Hrun & _ & _ & Hall); try reflexivity.
  - apply (bool_decide_unpack _). vm_compute. exact I.
  - exists records. split; [exact Hrun|]. apply Hall.
    apply (bool_decide_unpack _). vm_compute. exact I.
Defined.

Lemma counts_on_stored_values_witness :
  exists records,
    compute_stats_atlas SampleMore.env "lesion.nii.gz" "atlas_small.nii.gz"
      "brainstem" = inr records
    /\ length records = 24%nat.
Proof.
  destruct (counts_on_stored_values SampleMore.env "lesion.nii.gz"
              "atlas_small.nii.gz" "brainstem" Sample.lesion
              SampleMore.atlas_small load_brainstem_labels.1
              load_brainstem_labels.2)
    as (records & Hrun & _); try reflexivity.
  - repeat constructor.
    + exists 1%Z. split; [lia | reflexivity].
    + exists 0%Z. split; [lia | reflexivity].
    + exists 1%Z. split; [lia | reflexivity].
    + exists 1%Z. split; [lia | reflexivity].
  - repeat constructor.
    + exists 0%Z. split; [lia | reflexivity].
    + exists 1%Z. split; [lia | reflexivity].
    + exists 1%Z. split; [lia | reflexivity].
    + exists 0%Z. split; [lia | reflexivity].
  - exists records. split; [exact Hrun|].
    vm_compute in Hrun. injection Hrun as <-. reflexivity.
Defined.

Lemma fractional_lesion_is_dropped_witness :
  exists records,
    compute_stats_atlas SampleMore.env "lesion_fractions.nii.gz"
      "atlas_small.nii.gz" "brainstem" = inr records
    /\ forall r, r ∈ records -> n_lesion_voxels r = 0%nat.
Proof.
  apply (fractional_lesion_is_dropped SampleMore.env "lesion_fractions.nii.gz"
           "atlas_small.nii.gz" "brainstem" SampleMore.lesion_fractions
           SampleMore.atlas_small load_brainstem_labels.1
           load_brainstem_labels.2); try reflexivity.
  repeat constructor.
Defined.

Lemma returned_records_follow_catalog_witness :
  Forall2 (fun region_id r =>
             Sample.tailrach_names !! region_id = Some (atlas_label r)
             /\ n_label_voxels r
                = cells_with_label
                    (Np.astype_uint8 (get_fdata Sample.atlas_2)) region_id)
          Sample.tailrach_labels
          (match
             compute_stats_atlas Sample.env "lesion_1.nii.gz" "atlas_2.nii.gz"
               "tailrach"
           with
           | inr records => records
           | inl _ => []
           end).
Proof.
  apply (returned_records_follow_catalog Sample.env "lesion_1.nii.gz"
           "atlas_2.nii.gz" "tailrach" Sample.atlas_2 Sample.tailrach_labels
           Sample.tailrach_names); reflexivity.
Defined.

Lemma covered_and_untouched_regions_witness :
  exists records r,
    compute_stats_atlas SampleMore.env "lesion.nii.gz" "atlas.nii.gz"
      "brainstem" = inr records
    /\ records !! 5%nat = Some r
    /\ n_label_voxels r = 2%nat
    /\ n_lesion_voxels r = n_label_voxels r.
Proof.
  destruct (covered_and_untouched_regions SampleMore.env "lesion.nii.gz"
              "atlas.nii.gz" "brainstem" Sample.lesion Sample.atlas
              load_brainstem_labels.1 load_brainstem_labels.2)
    as (records & Hrun & Hrec); try reflexivity.
  destruct (Hrec 5%nat 5%Z eq_refl) as (r & Hr & Hcov & _).
  exists records, r. split; [exact Hrun|]. split; [exact Hr|].
  assert (Hfull : n_lesion_voxels r = n_label_voxels r).
  { apply Hcov. apply (bool_decide_unpack _). vm_compute. exact I. }
  split; [|exact Hfull].
  vm_compute in Hrun. injection Hrun as <-.
  vm_compute in Hr. injection Hr as <-. reflexivity.
Defined.
